(** * M5Stack SHT30 driver: a shallow embedding and its properties

    The Python package [m5stack] drives a Sensirion SHT30 temperature and
    humidity sensor over I2C.  This development embeds

    - [m5stack/sht30.py]: the real driver [SHT30] (one measurement cycle
      [_measure_raw] and the three accessors) and the simulated driver
      [SHT30Fake];
    - the collaborators that [sht30.py] imports but that are not part of
      the sources at hand ([sht30_codec], [conversion_utils],
      [exceptions]); they are modelled from the written specification and
      marked as such.

    Python [int] is [Z], [bytes] is a [list Z] of values in [0, 256),
    [float] is the binary64 primitive [float], exceptions are an error
    type, and I/O is explicit state passing over a world with a call log. *)

From Stdlib Require Import ZArith List String Bool Lia.
From Stdlib Require Import QArith Qabs.
From Stdlib Require Import Floats.
Import ListNotations.

Open Scope Z_scope.

(* ------------------------------------------------------------------ *)
(** ** Exceptions and results *)

(** The two ways the codec rejects a frame. *)
Inductive protocol_error : Type :=
| MalformedLength (got : nat)
| ChecksumMismatch.

(** Python exceptions that can travel through the driver.  [OSError]
    stands for the class and all its subclasses and carries [str(error)];
    [OtherException] is any exception class that does not derive from
    [OSError] (for instance the [ValueError] of [bytes(...)] or of
    [time.sleep]).  [SHT30Error msg cause] is [m5stack.exceptions.SHT30Error]
    raised with message [msg] and [__cause__] set by [raise ... from]; the
    specification calls it the transport error.  [ProtocolError] is the
    codec's failure. *)
Inductive exn : Type :=
| OSError (msg : string)
| OtherException (cls msg : string)
| ProtocolError (kind : protocol_error)
| SHT30Error (msg : string) (cause : exn).

Inductive result (A : Type) : Type :=
| Ok (value : A)
| Raise (error : exn).

Arguments Ok {A} value.
Arguments Raise {A} error.

(* ------------------------------------------------------------------ *)
(** ** Frame codec ([m5stack.sht30_codec]) *)

Module Codec.

(** Modelled from the spec: the module [m5stack/sht30_codec.py] is missing;
    one shift step of the CRC-8 register, MSB first, polynomial 0x31: when
    the top bit is set the shifted register is xored with the polynomial,
    and the register is kept on 8 bits. *)
Definition crc8_step (crc : Z) : Z :=
  if Z.testbit crc 7
  then Z.land (Z.lxor (Z.shiftl crc 1) 0x31) 0xFF
  else Z.land (Z.shiftl crc 1) 0xFF.

(** Modelled from the spec: the module [m5stack/sht30_codec.py] is missing;
    a data byte is xored into the register, which is then shifted 8 times. *)
Definition crc8_byte (crc byte : Z) : Z :=
  Nat.iter 8 crc8_step (Z.lxor crc byte).

(** Modelled from the spec: the module [m5stack/sht30_codec.py] is missing;
    CRC-8 with polynomial 0x31, initial value 0xFF, MSB-first bit order and
    no final XOR. *)
Definition crc8 (data : list Z) : Z :=
  fold_left crc8_byte data 0xFF.

(** Modelled from the spec: the module [m5stack/sht30_codec.py] is missing;
    the big-endian unsigned integer held by a byte string
    ([int.from_bytes(data, "big")]). *)
Definition from_bytes_big (data : list Z) : Z :=
  fold_left (fun acc byte => Z.lor (Z.shiftl acc 8) byte) data 0.

(** Modelled from the spec: the module [m5stack/sht30_codec.py] is missing;
    [parse_measurement_frame] with a log of the byte strings over which a
    checksum was computed.  The length is checked first; then the frame is
    split into channel A (bytes 0-1), its checksum (byte 2), channel B
    (bytes 3-4) and its checksum (byte 5); both checksums are computed and
    the frame is rejected when either disagrees. *)
Definition parse_measurement_frame_logged (frame : list Z)
  : list (list Z) * result (Z * Z) :=
  if negb (Nat.eqb (List.length frame) 6)
  then ([], Raise (ProtocolError (MalformedLength (List.length frame))))
  else
    let channel_a := firstn 2 frame in
    let checksum_a := nth 2 frame 0 in
    let channel_b := firstn 2 (skipn 3 frame) in
    let checksum_b := nth 5 frame 0 in
    let computed_a := crc8 channel_a in
    let computed_b := crc8 channel_b in
    ([channel_a; channel_b],
     if (computed_a =? checksum_a) && (computed_b =? checksum_b)
     then Ok (from_bytes_big channel_a, from_bytes_big channel_b)
     else Raise (ProtocolError ChecksumMismatch)).

(** Modelled from the spec: the module [m5stack/sht30_codec.py] is missing;
    [parse_measurement_frame(frame) -> (uint16, uint16)]. *)
Definition parse_measurement_frame (frame : list Z) : result (Z * Z) :=
  snd (parse_measurement_frame_logged frame).

(** Modelled from the spec: the repository has no encoder; the wire format
    [hi(A), lo(A), crc8(A), hi(B), lo(B), crc8(B)] of the specification,
    used to state the round trip. *)
Definition to_bytes_big16 (value : Z) : list Z :=
  [Z.shiftr value 8; Z.land value 0xFF].

Definition encode_measurement_frame (channel_a channel_b : Z) : list Z :=
  let a := to_bytes_big16 channel_a in
  let b := to_bytes_big16 channel_b in
  a ++ [crc8 a] ++ b ++ [crc8 b].

(** Flipping one bit of a byte. *)
Definition flip_bit (byte : Z) (k : Z) : Z := Z.lxor byte (Z.shiftl 1 k).

End Codec.

(** A Python [bytes] value: every element is in [range(0, 256)]. *)
Definition is_byte (b : Z) : Prop := 0 <= b < 256.
Definition is_byteb (b : Z) : bool := (0 <=? b) && (b <? 256).
Definition is_uint16 (v : Z) : Prop := 0 <= v <= 65535.

(* ------------------------------------------------------------------ *)
(** ** Conversion utilities ([m5stack.conversion_utils]) *)

Module Conversion.

(** Python's conversion of an [int] to [float].  It is exact for
    magnitudes up to 2^53, which covers every use below; the embedding is
    not meant for larger integers. *)
Definition float_of_int (z : Z) : float :=
  if z <? 0
  then PrimFloat.opp (PrimFloat.of_uint63 (Uint63.of_Z (- z)))
  else PrimFloat.of_uint63 (Uint63.of_Z z).

(** Python's true division [a / b] of two [int]s: the correctly rounded
    quotient.  Both operands convert exactly here, so that it is the
    binary64 division of the converted operands. *)
Definition int_true_div (a b : Z) : float :=
  PrimFloat.div (float_of_int a) (float_of_int b).

(** Modelled from the spec: the module [m5stack/conversion_utils.py] is
    missing; [raw_to_celsius(raw) = -45 + 175 * raw / 65535], evaluated as
    Python does: the product in [int], the quotient as a true division,
    the sum in [float]. *)
Definition raw_to_celsius (raw : Z) : float :=
  PrimFloat.add (float_of_int (-45)) (int_true_div (175 * raw) 65535).

(** Modelled from the spec: the module [m5stack/conversion_utils.py] is
    missing; [raw_to_humidity(raw) = 100 * raw / 65535]. *)
Definition raw_to_humidity (raw : Z) : float :=
  int_true_div (100 * raw) 65535.

(** The datasheet formulas over the rationals. *)
Definition celsius_exact (raw : Z) : Q :=
  (-45 + 175 * inject_Z raw / 65535)%Q.

Definition humidity_exact (raw : Z) : Q :=
  (100 * inject_Z raw / 65535)%Q.

(** The rational number a finite binary64 value denotes; [None] for
    infinities and NaN. *)
Definition Q_of_float (f : float) : option Q :=
  match Prim2SF f with
  | S754_zero _ => Some 0%Q
  | S754_finite sign m e =>
      let mag := (inject_Z (Z.pos m) * Qpower 2 e)%Q in
      Some (if sign then Qopp mag else mag)
  | S754_infinity _ => None
  | S754_nan => None
  end.

(** [f] is finite and within [tol] of the rational [q]. *)
Definition close_to (f : float) (q tol : Q) : Prop :=
  exists v, Q_of_float f = Some v /\ (Qabs (v - q) <= tol)%Q.

Definition close_tob (f : float) (q tol : Q) : bool :=
  match Q_of_float f with
  | Some v => Qle_bool (Qabs (v - q)) tol
  | None => false
  end.

(** [range_allb p n i] checks [p] on the [n] integers [i, i+1, ...]. *)
Fixpoint range_allb (p : Z -> bool) (n : nat) (i : Z) : bool :=
  match n with
  | O => true
  | S k => p i && range_allb p k (i + 1)
  end.

End Conversion.

(* ------------------------------------------------------------------ *)
(** ** The world the driver runs in *)

(** One entry per call the driver makes to a collaborator, in call order.
    [H] is the type of bus handles. *)
Inductive event (H : Type) : Type :=
| EvAcquire (bus_number : Z)
| EvWrite (bus : H) (address register : Z) (data : list Z)
| EvSleep (seconds : float)
| EvRead (bus : H) (address register length : Z)
| EvRelease (bus : H)
| EvCodec (frame : list Z).

Arguments EvAcquire {H} bus_number.
Arguments EvWrite {H} bus address register data.
Arguments EvSleep {H} seconds.
Arguments EvRead {H} bus address register length.
Arguments EvRelease {H} bus.
Arguments EvCodec {H} frame.

(** The collaborators of the driver over a world state [W]: the transport
    ([bus_factory] followed by [__enter__], the two block transfers of the
    handle, and [__exit__]) and [time.sleep].  Every call may change the
    world and may raise any exception, except the release: as for
    [smbus2.SMBus], [__exit__] closes the handle, returns [None] (it never
    swallows the exception of the block) and does not raise. *)
Record Env (W H : Type) : Type := {
  bus_factory : Z -> W -> W * result H;
  write_i2c_block_data : H -> Z -> Z -> list Z -> W -> W * result unit;
  read_i2c_block_data : H -> Z -> Z -> Z -> W -> W * result (list Z);
  bus_exit : H -> W -> W;
  time_sleep : float -> W -> W * result unit
}.

Arguments bus_factory {W H} _ _ _.
Arguments write_i2c_block_data {W H} _ _ _ _ _ _.
Arguments read_i2c_block_data {W H} _ _ _ _ _ _.
Arguments bus_exit {W H} _ _ _.
Arguments time_sleep {W H} _ _ _.

(** Computations: state passing over the world and the call log, with
    exceptions. *)
Definition IO (W H A : Type) : Type :=
  W * list (event H) -> (W * list (event H)) * result A.

Section Monad.
Context {W H : Type}.

Definition ret {A} (a : A) : IO W H A := fun s => (s, Ok a).

Definition raise {A} (e : exn) : IO W H A := fun s => (s, Raise e).

Definition lift {A} (r : result A) : IO W H A := fun s => (s, r).

Definition bind {A B} (m : IO W H A) (k : A -> IO W H B) : IO W H B :=
  fun s =>
    match m s with
    | (s', Ok a) => k a s'
    | (s', Raise e) => (s', Raise e)
    end.

(** A call to a collaborator: it is logged, then it acts on the world. *)
Definition call {A} (ev : event H) (op : W -> W * result A) : IO W H A :=
  fun s =>
    let (w', r) := op (fst s) in ((w', snd s ++ [ev]), r).

(** [try: m  finally: cleanup], for a cleanup that does not raise. *)
Definition finally {A} (m : IO W H A) (cleanup : IO W H unit) : IO W H A :=
  fun s =>
    let (s', r) := m s in (fst (cleanup s'), r).

(** [try: m  except OSError as error: handler(error)]; every other
    exception passes through. *)
Definition try_except_OSError {A} (m : IO W H A) (handler : string -> IO W H A)
  : IO W H A :=
  fun s =>
    match m s with
    | (s', Raise (OSError msg)) => handler msg s'
    | other => other
    end.

End Monad.

Declare Scope io_scope.
Delimit Scope io_scope with io.
Notation "x <- m ;; k" := (bind m (fun x => k))
  (at level 100, m at next level, right associativity) : io_scope.
Notation "m ;; k" := (bind m (fun _ => k))
  (at level 100, right associativity) : io_scope.

(* ------------------------------------------------------------------ *)
(** ** The real driver ([class SHT30]) *)

Module Driver.

Definition _DEFAULT_ADDRESS : Z := 0x44.
(** Single-shot measurement, high repeatability, no clock stretching. *)
Definition _COMMAND_SINGLE_HIGH : Z * Z := (0x24, 0x00).
Definition _READ_FRAME_LENGTH : Z := 6.

(** The fields of the dataclass; [bus_factory] is held by the [Env]. *)
Record SHT30 : Type := {
  bus_number : Z;
  address : Z;
  measurement_delay_seconds : float
}.

(** The defaults of the dataclass; the delay is the binary64 value of the
    literal [0.020]. *)
Definition default : SHT30 := {|
  bus_number := 1;
  address := _DEFAULT_ADDRESS;
  measurement_delay_seconds := 0x1.47ae147ae147bp-6%float
|}.

(** [bytes(iterable_of_ints)]: a [ValueError] unless every element is in
    [range(0, 256)]. *)
Definition bytes (data : list Z) : result (list Z) :=
  if forallb is_byteb data
  then Ok data
  else Raise (OtherException "ValueError" "bytes must be in range(0, 256)").

Section Methods.
Context {W H : Type}.
Variable env : Env W H.
Variable self : SHT30.

Local Open Scope io_scope.

(** [with self.bus_factory(self.bus_number) as bus: body]: the handle is
    acquired, the block runs, and the handle is released whether the block
    returned or raised.  When the acquisition raises there is no handle and
    nothing to release. *)
Definition with_bus {A} (body : H -> IO W H A) : IO W H A :=
  bus <- call (EvAcquire (bus_number self)) (bus_factory env (bus_number self)) ;;
  finally (body bus)
          (call (EvRelease bus) (fun w => (bus_exit env bus w, Ok tt))).

(** The call of the codec, logged. *)
Definition call_codec (frame : list Z) : IO W H (Z * Z) :=
  call (EvCodec frame) (fun w => (w, Codec.parse_measurement_frame frame)).

(** Trigger a single-shot measurement and return raw (temperature,
    humidity). *)
Definition _measure_raw : IO W H (Z * Z) :=
  frame <-
    try_except_OSError
      (with_bus (fun bus =>
         (* 1. trigger measurement *)
         call (EvWrite bus (address self) (fst _COMMAND_SINGLE_HIGH)
                       [snd _COMMAND_SINGLE_HIGH])
              (write_i2c_block_data env bus (address self)
                 (fst _COMMAND_SINGLE_HIGH) [snd _COMMAND_SINGLE_HIGH]) ;;
         (* 2. wait for the sensor to complete the measurement *)
         call (EvSleep (measurement_delay_seconds self))
              (time_sleep env (measurement_delay_seconds self)) ;;
         (* 3. read the 6-byte measurement frame *)
         data <- call (EvRead bus (address self) 0x00 _READ_FRAME_LENGTH)
                      (read_i2c_block_data env bus (address self) 0x00
                         _READ_FRAME_LENGTH) ;;
         lift (bytes data)))
      (fun error =>
         raise (SHT30Error ("I2C communication failed: " ++ error)
                           (OSError error))) ;;
  (* 4. parse and validate the frame *)
  call_codec frame.

(** Read both temperature (deg C) and relative humidity (%RH). *)
Definition read : IO W H (float * float) :=
  raw <- _measure_raw ;;
  let (temperature_raw, humidity_raw) := raw : Z * Z in
  ret (Conversion.raw_to_celsius temperature_raw,
       Conversion.raw_to_humidity humidity_raw).

(** Read only temperature in Celsius. *)
Definition read_temperature : IO W H float :=
  raw <- _measure_raw ;;
  let (temperature_raw, _) := raw : Z * Z in
  ret (Conversion.raw_to_celsius temperature_raw).

(** Read only relative humidity in percent. *)
Definition read_humidity : IO W H float :=
  raw <- _measure_raw ;;
  let (_, humidity_raw) := raw : Z * Z in
  ret (Conversion.raw_to_humidity humidity_raw).

End Methods.

(** The exception that leaves [_measure_raw] when [e] is raised inside its
    [try] block: an [OSError] is replaced by an [SHT30Error] that carries it
    as its cause, anything else passes unchanged. *)
Definition surfaced (e : exn) : exn :=
  match e with
  | OSError msg =>
      SHT30Error ("I2C communication failed: " ++ msg) (OSError msg)
  | _ => e
  end.

(** The calls of one full cycle on [bus], up to the release. *)
Definition cycle_calls {H} (self : SHT30) (bus : H) : list (event H) :=
  [EvAcquire (bus_number self);
   EvWrite bus (address self) 0x24 [0x00];
   EvSleep (measurement_delay_seconds self);
   EvRead bus (address self) 0x00 6;
   EvRelease bus].

(** Kinds of calls in a log. *)
Definition is_write {H} (ev : event H) : bool :=
  match ev with EvWrite _ _ _ _ => true | _ => false end.
Definition is_sleep {H} (ev : event H) : bool :=
  match ev with EvSleep _ => true | _ => false end.
Definition is_read {H} (ev : event H) : bool :=
  match ev with EvRead _ _ _ _ => true | _ => false end.
Definition is_release {H} (ev : event H) : bool :=
  match ev with EvRelease _ => true | _ => false end.
Definition is_codec {H} (ev : event H) : bool :=
  match ev with EvCodec _ => true | _ => false end.

Definition count {H} (p : event H -> bool) (log : list (event H)) : nat :=
  List.length (filter p log).

Definition is_acquire {H} (ev : event H) : bool :=
  match ev with EvAcquire _ => true | _ => false end.

(** What a run of [_measure_raw] from world [w] can be, by the first
    collaborator that raises: the world and log it leaves and its outcome. *)
Inductive cycle_run {W H} (env : Env W H) (self : SHT30) (w : W)
  : (W * list (event H)) * result (Z * Z) -> Prop :=
| run_acquire_raises (w1 : W) (e : exn) :
    bus_factory env (bus_number self) w = (w1, Raise e) ->
    cycle_run env self w
      ((w1, [EvAcquire (bus_number self)]), Raise (surfaced e))
| run_write_raises (w1 w2 : W) (bus : H) (e : exn) :
    bus_factory env (bus_number self) w = (w1, Ok bus) ->
    write_i2c_block_data env bus (address self) 0x24 [0x00] w1
      = (w2, Raise e) ->
    cycle_run env self w
      ((bus_exit env bus w2,
        [EvAcquire (bus_number self);
         EvWrite bus (address self) 0x24 [0x00]; EvRelease bus]),
       Raise (surfaced e))
| run_sleep_raises (w1 w2 w3 : W) (bus : H) (e : exn) :
    bus_factory env (bus_number self) w = (w1, Ok bus) ->
    write_i2c_block_data env bus (address self) 0x24 [0x00] w1
      = (w2, Ok tt) ->
    time_sleep env (measurement_delay_seconds self) w2 = (w3, Raise e) ->
    cycle_run env self w
      ((bus_exit env bus w3,
        [EvAcquire (bus_number self);
         EvWrite bus (address self) 0x24 [0x00];
         EvSleep (measurement_delay_seconds self); EvRelease bus]),
       Raise (surfaced e))
| run_read_raises (w1 w2 w3 w4 : W) (bus : H) (e : exn) :
    bus_factory env (bus_number self) w = (w1, Ok bus) ->
    write_i2c_block_data env bus (address self) 0x24 [0x00] w1
      = (w2, Ok tt) ->
    time_sleep env (measurement_delay_seconds self) w2 = (w3, Ok tt) ->
    read_i2c_block_data env bus (address self) 0x00 6 w3 = (w4, Raise e) ->
    cycle_run env self w
      ((bus_exit env bus w4, cycle_calls self bus), Raise (surfaced e))
| run_bytes_raises (w1 w2 w3 w4 : W) (bus : H) (data : list Z) (e : exn) :
    bus_factory env (bus_number self) w = (w1, Ok bus) ->
    write_i2c_block_data env bus (address self) 0x24 [0x00] w1
      = (w2, Ok tt) ->
    time_sleep env (measurement_delay_seconds self) w2 = (w3, Ok tt) ->
    read_i2c_block_data env bus (address self) 0x00 6 w3 = (w4, Ok data) ->
    bytes data = Raise e ->
    cycle_run env self w
      ((bus_exit env bus w4, cycle_calls self bus), Raise (surfaced e))
| run_codec (w1 w2 w3 w4 : W) (bus : H) (data frame : list Z) :
    bus_factory env (bus_number self) w = (w1, Ok bus) ->
    write_i2c_block_data env bus (address self) 0x24 [0x00] w1
      = (w2, Ok tt) ->
    time_sleep env (measurement_delay_seconds self) w2 = (w3, Ok tt) ->
    read_i2c_block_data env bus (address self) 0x00 6 w3 = (w4, Ok data) ->
    bytes data = Ok frame ->
    cycle_run env self w
      ((bus_exit env bus w4, cycle_calls self bus ++ [EvCodec frame]),
       Codec.parse_measurement_frame frame).

(** A caller that asks for the temperature and then for the humidity:
    [t = sensor.read_temperature(); h = sensor.read_humidity()]. *)
Definition read_temperature_then_humidity {W H}
  (env : Env W H) (self : SHT30) : IO W H (float * float) :=
  bind (read_temperature env self) (fun t =>
  bind (read_humidity env self) (fun h =>
  ret (t, h))).

End Driver.

(* ------------------------------------------------------------------ *)
(** ** The simulated driver ([class SHT30Fake]) *)

Module Fake.

Record SHT30Fake : Type := {
  temperature : float;
  humidity : float;
  temperature_sigma : float;
  humidity_sigma : float
}.

Definition default : SHT30Fake := {|
  temperature := 25%float;
  humidity := 50%float;
  temperature_sigma := 0x1.999999999999ap-3%float;
  humidity_sigma := 1%float
|}.

(** Python's two-argument [min(a, b)] and [max(a, b)]: the first argument
    is kept unless the second compares strictly below (above) it.  A
    comparison with NaN is false. *)
Definition py_min (a b : float) : float :=
  if PrimFloat.ltb b a then b else a.
Definition py_max (a b : float) : float :=
  if PrimFloat.ltb a b then b else a.

Section Methods.
(** The process-wide generator of [random]: [gauss mu sigma] draws a float,
    of which nothing is assumed, and steps the generator state [G]. *)
Context {G : Type}.
Variable gauss : float -> float -> G -> float * G.
Variable self : SHT30Fake.

Definition _rand_temperature (g : G) : float * G :=
  let (t, g') := gauss (temperature self) (temperature_sigma self) g in
  (py_max (-40)%float (py_min 125%float t), g').

Definition _rand_humidity (g : G) : float * G :=
  let (h, g') := gauss (humidity self) (humidity_sigma self) g in
  (py_max 0%float (py_min 100%float h), g').

Definition read (g : G) : (float * float) * G :=
  let (t, g1) := _rand_temperature g in
  let (h, g2) := _rand_humidity g1 in
  ((t, h), g2).

Definition read_temperature (g : G) : float * G := _rand_temperature g.

Definition read_humidity (g : G) : float * G := _rand_humidity g.

End Methods.

(** [lo <= x <= hi] as binary64 comparisons; in particular [x] is not NaN. *)
Definition between (lo hi x : float) : Prop :=
  PrimFloat.leb lo x = true /\ PrimFloat.leb x hi = true.

(** [value] is [draw] clamped into [lo, hi]: it lies in the range; it is
    the draw itself when the draw is strictly inside, the lower bound when
    the draw is at or below it, and the upper bound when the draw is at or
    above it or is NaN. *)
Definition clamped (lo hi draw value : float) : Prop :=
  between lo hi value
  /\ (PrimFloat.ltb lo draw = true -> PrimFloat.ltb draw hi = true ->
      value = draw)
  /\ (PrimFloat.ltb draw lo = true \/ PrimFloat.eqb draw lo = true ->
      value = lo)
  /\ (PrimFloat.ltb hi draw = true \/ PrimFloat.eqb draw hi = true
      \/ PrimFloat.is_nan draw = true ->
      value = hi).

(** The generator of [random] seen as the sequence [z] of standard normal
    variates it hands out, with the position of the next one:
    [random.gauss(mu, sigma)] takes the next variate and returns
    [mu + z * sigma]. *)
Definition gauss_from (z : nat -> float) (mu sigma : float) (cursor : nat)
  : float * nat :=
  (PrimFloat.add mu (PrimFloat.mul (z cursor) sigma), S cursor).

End Fake.

(* ------------------------------------------------------------------ *)
(** ** Runs and a transport double *)

(** A run of a computation from world [w] with an empty call log: the
    calls it made, the world it left and its outcome. *)
Definition run {W H A} (m : IO W H A) (w : W)
  : (W * list (event H)) * result A := m (w, []).
Definition calls_of {W H A} (r : (W * list (event H)) * result A)
  : list (event H) := snd (fst r).
Definition world_of {W H A} (r : (W * list (event H)) * result A) : W :=
  fst (fst r).
Definition outcome_of {W H A} (r : (W * list (event H)) * result A)
  : result A := snd r.

(** A computation only appends to the call log it is given, and what it
    does is independent of that log. *)
Definition framed {W H A} (m : IO W H A) : Prop :=
  forall (w : W) (log : list (event H)),
    m (w, log) =
    ((world_of (run m w), log ++ calls_of (run m w)), outcome_of (run m w)).

Definition map_result {A B} (f : A -> B) (r : result A) : result B :=
  match r with
  | Ok a => Ok (f a)
  | Raise e => Raise e
  end.

Definition failure_of {A} (r : result A) : option exn :=
  match r with
  | Ok _ => None
  | Raise e => Some e
  end.

(** The call logs, and the failures if any, of the three accessors run
    from the same world. *)
Definition accessor_logs {W H} (env : Env W H) (self : Driver.SHT30) (w : W)
  : list (list (event H)) :=
  [calls_of (run (Driver.read env self) w);
   calls_of (run (Driver.read_temperature env self) w);
   calls_of (run (Driver.read_humidity env self) w)].

Definition accessor_failures {W H} (env : Env W H) (self : Driver.SHT30) (w : W)
  : list (option exn) :=
  [failure_of (outcome_of (run (Driver.read env self) w));
   failure_of (outcome_of (run (Driver.read_temperature env self) w));
   failure_of (outcome_of (run (Driver.read_humidity env self) w))].

Module Stub.

(** A scripted transport: what each collaborator answers.  The world is
    the number of handles that are open; handles are numbered. *)
Record script : Type := {
  on_open : result Z;
  on_write : result unit;
  on_sleep : result unit;
  on_read : result (list Z)
}.

Definition env (sc : script) : Env nat Z := {|
  bus_factory := fun _ w =>
    match on_open sc with
    | Ok bus => (S w, Ok bus)
    | Raise e => (w, Raise e)
    end;
  write_i2c_block_data := fun _ _ _ _ w => (w, on_write sc);
  read_i2c_block_data := fun _ _ _ _ w => (w, on_read sc);
  bus_exit := fun _ w => Nat.pred w;
  time_sleep := fun _ w => (w, on_sleep sc)
|}.

(** A sensor that answers with [frame]. *)
Definition answering (frame : list Z) : script := {|
  on_open := Ok 7;
  on_write := Ok tt;
  on_sleep := Ok tt;
  on_read := Ok frame
|}.

(** A bus on which the trigger write fails (no acknowledge). *)
Definition write_failing : script := {|
  on_open := Ok 7;
  on_write := Raise (OSError "[Errno 121] Remote I/O error");
  on_sleep := Ok tt;
  on_read := Ok []
|}.

(** No such bus: the device file is missing. *)
Definition open_failing : script := {|
  on_open := Raise (OSError "[Errno 2] No such file or directory");
  on_write := Ok tt;
  on_sleep := Ok tt;
  on_read := Ok []
|}.

(** [time.sleep] refuses the delay. *)
Definition sleep_failing : script := {|
  on_open := Ok 7;
  on_write := Ok tt;
  on_sleep :=
    Raise (OtherException "ValueError" "sleep length must be non-negative");
  on_read := Ok []
|}.

(** A bus on which the block read fails. *)
Definition read_failing : script := {|
  on_open := Ok 7;
  on_write := Ok tt;
  on_sleep := Ok tt;
  on_read := Raise (OSError "[Errno 121] Remote I/O error")
|}.

(** Generators for the simulated driver, over a draw counter: one that
    always draws the mean, one that draws far below every range, one that
    draws far above, and one that draws NaN. *)
Definition draw_mean (mu sigma : float) (g : nat) : float * nat := (mu, S g).
Definition draw_low (mu sigma : float) (g : nat) : float * nat :=
  (neg_infinity, S g).
Definition draw_high (mu sigma : float) (g : nat) : float * nat :=
  (infinity, S g).
Definition draw_nan (mu sigma : float) (g : nat) : float * nat := (nan, S g).

(** A frame with correct checksums: channels 0x61A8 and 0x7CB4. *)
Definition good_frame : list Z := [0x61; 0xA8; 0x65; 0x7C; 0xB4; 0x75].

(** The frame that the specification gives as its end-to-end example. *)
Definition spec_example_frame : list Z := [0x61; 0xA8; 0x23; 0x7C; 0xB4; 0x89].

End Stub.

(* ================================================================== *)
(** * Properties *)

(* ------------------------------------------------------------------ *)
(** ** Bytes and big-endian integers *)

Lemma testbit_byte_high (b n : Z) : is_byte b -> 8 <= n -> Z.testbit b n = false.
Proof.
  intros [Hlo Hhi] Hn.
  destruct (Z.eq_dec b 0) as [->|Hnz]; [apply Z.bits_0|].
  apply Z.bits_above_log2; [lia|].
  assert (Z.log2 b < 8); [|lia].
  apply Z.log2_lt_pow2; [lia|]. change (2 ^ 8) with 256. lia.
Qed.

Lemma land_shiftl8_byte (hi lo : Z) : is_byte lo -> Z.land (Z.shiftl hi 8) lo = 0.
Proof.
  intros Hlo. apply Z.bits_inj'. intros n Hn.
  rewrite Z.land_spec, Z.bits_0.
  destruct (Z.lt_ge_cases n 8) as [Hlt|Hge].
  - rewrite Z.shiftl_spec_low by lia. reflexivity.
  - rewrite (testbit_byte_high lo n Hlo Hge). apply andb_false_r.
Qed.

Lemma lor_shiftl8_byte (hi lo : Z) :
  is_byte lo -> Z.lor (Z.shiftl hi 8) lo = hi * 256 + lo.
Proof.
  intros Hlo.
  pose proof (Z.add_lor_land (Z.shiftl hi 8) lo) as Hadd.
  rewrite (land_shiftl8_byte hi lo Hlo), Z.add_0_r in Hadd.
  rewrite Hadd, Z.shiftl_mul_pow2 by lia. reflexivity.
Qed.

Lemma from_bytes_big_pair (hi lo : Z) :
  is_byte lo -> Codec.from_bytes_big [hi; lo] = hi * 256 + lo.
Proof.
  intros Hlo. unfold Codec.from_bytes_big. cbn [fold_left].
  rewrite Z.shiftl_0_l, Z.lor_0_l. apply lor_shiftl8_byte, Hlo.
Qed.

Lemma to_bytes_big16_bytes (v : Z) :
  is_uint16 v -> is_byte (Z.shiftr v 8) /\ is_byte (Z.land v 0xFF).
Proof.
  intros [Hlo Hhi]. unfold is_byte.
  rewrite Z.shiftr_div_pow2 by lia.
  change 0xFF with (Z.ones 8). rewrite Z.land_ones by lia.
  change (2 ^ 8) with 256.
  pose proof (Z.mod_pos_bound v 256 ltac:(lia)).
  pose proof (Z.div_pos v 256 Hlo ltac:(lia)).
  assert (v / 256 < 256) by (apply Z.div_lt_upper_bound; lia).
  lia.
Qed.

Lemma from_bytes_big_to_bytes_big16 (v : Z) :
  is_uint16 v -> Codec.from_bytes_big (Codec.to_bytes_big16 v) = v.
Proof.
  intros Hv. destruct (to_bytes_big16_bytes v Hv) as [_ Hlo].
  unfold Codec.to_bytes_big16. rewrite from_bytes_big_pair by exact Hlo.
  destruct Hv as [Hv0 Hv1].
  rewrite Z.shiftr_div_pow2 by lia.
  change 0xFF with (Z.ones 8). rewrite Z.land_ones by lia.
  change (2 ^ 8) with 256.
  pose proof (Z.div_mod v 256 ltac:(lia)). lia.
Qed.

Lemma land_0xFF_byte (x : Z) : is_byte (Z.land x 0xFF).
Proof.
  unfold is_byte. change 0xFF with (Z.ones 8). rewrite Z.land_ones by lia.
  change (2 ^ 8) with 256. apply Z.mod_pos_bound. lia.
Qed.

Lemma crc8_step_byte (crc : Z) : is_byte (Codec.crc8_step crc).
Proof.
  unfold Codec.crc8_step. destruct (Z.testbit crc 7); apply land_0xFF_byte.
Qed.

Lemma crc8_byte_byte (crc byte : Z) : is_byte (Codec.crc8_byte crc byte).
Proof. unfold Codec.crc8_byte. cbn [Nat.iter]. apply crc8_step_byte. Qed.

Lemma crc8_pair_byte (hi lo : Z) : is_byte (Codec.crc8 [hi; lo]).
Proof. unfold Codec.crc8. cbn [fold_left]. apply crc8_byte_byte. Qed.

Lemma flip_bit_changes (byte k : Z) : 0 <= k -> Codec.flip_bit byte k <> byte.
Proof.
  intros Hk Heq. unfold Codec.flip_bit in Heq.
  assert (Hz : Z.shiftl 1 k = 0).
  { transitivity (Z.lxor byte (Z.lxor byte (Z.shiftl 1 k))).
    - rewrite <- Z.lxor_assoc, Z.lxor_nilpotent, Z.lxor_0_l. reflexivity.
    - rewrite Heq. apply Z.lxor_nilpotent. }
  rewrite Z.shiftl_mul_pow2 in Hz by exact Hk.
  pose proof (Z.pow_pos_nonneg 2 k ltac:(lia) Hk). lia.
Qed.

(* ------------------------------------------------------------------ *)
(** ** The frame codec *)

(** The checksum of the sensor family's data sheet example: the CRC-8 of
    0xBEEF is 0x92. *)
Lemma crc8_datasheet_example : Codec.crc8 [0xBE; 0xEF] = 0x92.
Proof. reflexivity. Qed.

Lemma parse_six (a1 a0 ca b1 b0 cb : Z) :
  Codec.parse_measurement_frame [a1; a0; ca; b1; b0; cb] =
  if (Codec.crc8 [a1; a0] =? ca) && (Codec.crc8 [b1; b0] =? cb)
  then Ok (Codec.from_bytes_big [a1; a0], Codec.from_bytes_big [b1; b0])
  else Raise (ProtocolError ChecksumMismatch).
Proof. reflexivity. Qed.

Lemma parse_six_mismatch (a1 a0 ca b1 b0 cb : Z) :
  ca <> Codec.crc8 [a1; a0] \/ cb <> Codec.crc8 [b1; b0] ->
  Codec.parse_measurement_frame [a1; a0; ca; b1; b0; cb] =
  Raise (ProtocolError ChecksumMismatch).
Proof.
  intros Hbad. rewrite parse_six.
  destruct (Z.eqb_spec (Codec.crc8 [a1; a0]) ca) as [Ha|Ha];
    destruct (Z.eqb_spec (Codec.crc8 [b1; b0]) cb) as [Hb|Hb];
    try reflexivity.
  destruct Hbad as [Hbad|Hbad]; congruence.
Qed.

Lemma parse_six_match (a1 a0 b1 b0 : Z) :
  is_byte a0 -> is_byte b0 ->
  Codec.parse_measurement_frame
    [a1; a0; Codec.crc8 [a1; a0]; b1; b0; Codec.crc8 [b1; b0]] =
  Ok (a1 * 256 + a0, b1 * 256 + b0).
Proof.
  intros Ha Hb. rewrite parse_six, !Z.eqb_refl. simpl andb.
  rewrite !from_bytes_big_pair by assumption. reflexivity.
Qed.

(** C1. A 6-byte frame whose two checksum bytes are the CRC-8 of the
    channels before them parses to the two channels read as big-endian
    unsigned 16-bit integers; a frame in which either checksum byte differs
    from the computed CRC-8 is rejected with the checksum-mismatch protocol
    error, in particular after one bit of either checksum byte of a good
    frame was flipped. *)
Theorem parse_measurement_frame_checksum
  (a1 a0 ca b1 b0 cb : Z)
  (Hbytes : Forall is_byte [a1; a0; ca; b1; b0; cb]) :
  (ca = Codec.crc8 [a1; a0] /\ cb = Codec.crc8 [b1; b0] ->
   Codec.parse_measurement_frame [a1; a0; ca; b1; b0; cb] =
     Ok (a1 * 256 + a0, b1 * 256 + b0)
   /\ is_uint16 (a1 * 256 + a0) /\ is_uint16 (b1 * 256 + b0))
  /\
  (ca <> Codec.crc8 [a1; a0] \/ cb <> Codec.crc8 [b1; b0] ->
   Codec.parse_measurement_frame [a1; a0; ca; b1; b0; cb] =
     Raise (ProtocolError ChecksumMismatch))
  /\
  (forall k, 0 <= k < 8 ->
   ca = Codec.crc8 [a1; a0] -> cb = Codec.crc8 [b1; b0] ->
   Codec.parse_measurement_frame [a1; a0; Codec.flip_bit ca k; b1; b0; cb] =
     Raise (ProtocolError ChecksumMismatch)
   /\
   Codec.parse_measurement_frame [a1; a0; ca; b1; b0; Codec.flip_bit cb k] =
     Raise (ProtocolError ChecksumMismatch)).
Proof.
  repeat match goal with
         | H : Forall _ (_ :: _) |- _ => inversion_clear H
         end.
  unfold is_byte, is_uint16 in *.
  split; [|split].
  - intros [-> ->]. split; [apply parse_six_match; assumption|lia].
  - apply parse_six_mismatch.
  - intros k Hk Hca Hcb. split; apply parse_six_mismatch.
    + left. rewrite <- Hca. apply flip_bit_changes. lia.
    + right. rewrite <- Hcb. apply flip_bit_changes. lia.
Qed.

Lemma parse_measurement_frame_checksum_witness :
  Codec.parse_measurement_frame [0xBE; 0xEF; 0x92; 0x12; 0x34; 0x37] =
    Ok (0xBEEF, 0x1234)
  /\ Codec.parse_measurement_frame [0xBE; 0xEF; 0x93; 0x12; 0x34; 0x37] =
    Raise (ProtocolError ChecksumMismatch).
Proof.
  assert (Hbytes : Forall is_byte [0xBE; 0xEF; 0x92; 0x12; 0x34; 0x37])
    by (repeat constructor; unfold is_byte; lia).
  destruct (parse_measurement_frame_checksum _ _ _ _ _ _ Hbytes)
    as (Hgood & _ & Hflip).
  split.
  - apply Hgood. split; reflexivity.
  - apply (Hflip 0); [lia|reflexivity|reflexivity].
Defined.

(** C5. A byte sequence whose length is not 6 is rejected with the
    malformed-length protocol error, and no checksum has been computed by
    then: the log of checksum computations is empty. *)
Theorem parse_measurement_frame_length
  (frame : list Z) (Hlen : List.length frame <> 6%nat) :
  Codec.parse_measurement_frame_logged frame =
    ([], Raise (ProtocolError (MalformedLength (List.length frame))))
  /\ Codec.parse_measurement_frame frame =
    Raise (ProtocolError (MalformedLength (List.length frame))).
Proof.
  unfold Codec.parse_measurement_frame, Codec.parse_measurement_frame_logged.
  destruct (Nat.eqb_spec (List.length frame) 6) as [Heq|Hne]; [contradiction|].
  split; reflexivity.
Qed.

Lemma parse_measurement_frame_length_witness :
  Codec.parse_measurement_frame_logged [0xBE; 0xEF; 0x92] =
    ([], Raise (ProtocolError (MalformedLength 3)))
  /\ Codec.parse_measurement_frame [0xBE; 0xEF; 0x92] =
    Raise (ProtocolError (MalformedLength 3)).
Proof.
  apply (parse_measurement_frame_length [0xBE; 0xEF; 0x92]).
  simpl. discriminate.
Defined.

(** In a frame of 6 bytes both checksums are computed, over bytes 0-1 and
    over bytes 3-4. *)
Lemma parse_measurement_frame_logged_six (a1 a0 ca b1 b0 cb : Z) :
  fst (Codec.parse_measurement_frame_logged [a1; a0; ca; b1; b0; cb]) =
  [[a1; a0]; [b1; b0]].
Proof. reflexivity. Qed.

(** C8. Encoding two 16-bit channel values as a frame with their CRC-8
    checksums and parsing the frame gives the two values back. *)
Theorem encode_parse_round_trip
  (channel_a channel_b : Z)
  (Ha : is_uint16 channel_a) (Hb : is_uint16 channel_b) :
  Codec.parse_measurement_frame
    (Codec.encode_measurement_frame channel_a channel_b) =
  Ok (channel_a, channel_b)
  /\ List.length (Codec.encode_measurement_frame channel_a channel_b) = 6%nat
  /\ Forall is_byte (Codec.encode_measurement_frame channel_a channel_b).
Proof.
  unfold Codec.encode_measurement_frame. cbn [app Codec.to_bytes_big16].
  split; [|split].
  - rewrite parse_six, !Z.eqb_refl. cbn [andb].
    change [Z.shiftr channel_a 8; Z.land channel_a 0xFF]
      with (Codec.to_bytes_big16 channel_a).
    change [Z.shiftr channel_b 8; Z.land channel_b 0xFF]
      with (Codec.to_bytes_big16 channel_b).
    rewrite !from_bytes_big_to_bytes_big16 by assumption. reflexivity.
  - reflexivity.
  - destruct (to_bytes_big16_bytes _ Ha) as [Ha1 Ha0].
    destruct (to_bytes_big16_bytes _ Hb) as [Hb1 Hb0].
    repeat apply Forall_cons; try apply Forall_nil; try assumption;
      apply crc8_pair_byte.
Qed.

Lemma encode_parse_round_trip_witness :
  Codec.parse_measurement_frame (Codec.encode_measurement_frame 0x61A8 0x7CB4)
  = Ok (0x61A8, 0x7CB4).
Proof.
  apply (encode_parse_round_trip 0x61A8 0x7CB4); unfold is_uint16; lia.
Defined.

(* ------------------------------------------------------------------ *)
(** ** The conversion utilities *)

Lemma range_allb_sound (p : Z -> bool) (n : nat) :
  forall i, Conversion.range_allb p n i = true ->
  forall z, i <= z < i + Z.of_nat n -> p z = true.
Proof.
  induction n as [|k IH]; intros i Hall z Hz.
  - simpl in Hz. lia.
  - cbn [Conversion.range_allb] in Hall.
    apply andb_true_iff in Hall. destruct Hall as [Hi Hrest].
    destruct (Z.eq_dec z i) as [->|Hne]; [exact Hi|].
    apply (IH (i + 1) Hrest). lia.
Qed.

Lemma close_tob_sound (f : float) (q tol : Q) :
  Conversion.close_tob f q tol = true -> Conversion.close_to f q tol.
Proof.
  unfold Conversion.close_tob, Conversion.close_to.
  destruct (Conversion.Q_of_float f) as [v|]; [|discriminate].
  intros Hle. exists v. split; [reflexivity|].
  apply Qle_bool_iff. exact Hle.
Qed.

(** Every raw value of 16 bits is checked by evaluation. *)
Lemma raw_to_celsius_checked :
  Conversion.range_allb
    (fun raw => Conversion.close_tob (Conversion.raw_to_celsius raw)
                  (Conversion.celsius_exact raw) (1 # 2 ^ 46))
    (Z.to_nat 65536) 0 = true.
Proof. vm_cast_no_check (eq_refl true). Qed.

Lemma raw_to_humidity_checked :
  Conversion.range_allb
    (fun raw => Conversion.close_tob (Conversion.raw_to_humidity raw)
                  (Conversion.humidity_exact raw) (1 # 2 ^ 47))
    (Z.to_nat 65536) 0 = true.
Proof. vm_cast_no_check (eq_refl true). Qed.

(** C3. For every raw value in [0, 65535], [raw_to_celsius] returns a
    finite float that equals [-45 + 175 * raw / 65535] up to floating-point
    rounding (within 2^-46 of the exact rational value); at the ends of the
    range it returns exactly -45.0 and exactly 130.0. *)
Theorem raw_to_celsius_formula (raw : Z) (Hraw : is_uint16 raw) :
  Conversion.close_to (Conversion.raw_to_celsius raw)
    (Conversion.celsius_exact raw) (1 # 2 ^ 46)
  /\ Conversion.raw_to_celsius 0 = (-45)%float
  /\ Conversion.raw_to_celsius 65535 = 130%float.
Proof.
  split; [|split; reflexivity].
  apply close_tob_sound.
  apply (range_allb_sound _ _ 0 raw_to_celsius_checked raw).
  unfold is_uint16 in Hraw. rewrite Z2Nat.id; lia.
Qed.

Lemma raw_to_celsius_formula_witness :
  Conversion.close_to (Conversion.raw_to_celsius 25000)
    (Conversion.celsius_exact 25000) (1 # 2 ^ 46)
  /\ Conversion.raw_to_celsius 0 = (-45)%float
  /\ Conversion.raw_to_celsius 65535 = 130%float.
Proof.
  apply (raw_to_celsius_formula 25000). unfold is_uint16. lia.
Defined.

(** C4. For every raw value in [0, 65535], [raw_to_humidity] returns a
    finite float that equals [100 * raw / 65535] up to floating-point
    rounding (within 2^-47 of the exact rational value), exactly 0.0 and
    exactly 100.0 at the ends of the range; nothing is clamped: a raw value
    just outside the 16-bit range gives a result above 100 or below 0. *)
Theorem raw_to_humidity_formula (raw : Z) (Hraw : is_uint16 raw) :
  Conversion.close_to (Conversion.raw_to_humidity raw)
    (Conversion.humidity_exact raw) (1 # 2 ^ 47)
  /\ Conversion.raw_to_humidity 0 = 0%float
  /\ Conversion.raw_to_humidity 65535 = 100%float
  /\ PrimFloat.ltb 100%float (Conversion.raw_to_humidity 65536) = true
  /\ PrimFloat.ltb (Conversion.raw_to_humidity (-1)) 0%float = true.
Proof.
  split; [|repeat split; reflexivity].
  apply close_tob_sound.
  apply (range_allb_sound _ _ 0 raw_to_humidity_checked raw).
  unfold is_uint16 in Hraw. rewrite Z2Nat.id; lia.
Qed.

Lemma raw_to_humidity_formula_witness :
  Conversion.close_to (Conversion.raw_to_humidity 46260)
    (Conversion.humidity_exact 46260) (1 # 2 ^ 47)
  /\ Conversion.raw_to_humidity 0 = 0%float
  /\ Conversion.raw_to_humidity 65535 = 100%float
  /\ PrimFloat.ltb 100%float (Conversion.raw_to_humidity 65536) = true
  /\ PrimFloat.ltb (Conversion.raw_to_humidity (-1)) 0%float = true.
Proof.
  apply (raw_to_humidity_formula 46260). unfold is_uint16. lia.
Defined.

(* ------------------------------------------------------------------ *)
(** ** The simulated driver *)

Lemma ltb_leb (x y : float) : PrimFloat.ltb x y = true -> PrimFloat.leb x y = true.
Proof.
  rewrite ltb_spec, leb_spec. unfold SFltb, SFleb.
  destruct (SFcompare (Prim2SF x) (Prim2SF y)) as [[| |]|];
    intros Hlt; solve [reflexivity | discriminate Hlt].
Qed.

(** Clamping with Python's [max(lo, min(hi, t))] lands in [lo, hi] for
    every float [t], NaN and the infinities included. *)
Lemma clamp_between (lo hi t : float) :
  PrimFloat.leb lo hi = true ->
  PrimFloat.leb lo lo = true ->
  PrimFloat.leb hi hi = true ->
  Fake.between lo hi (Fake.py_max lo (Fake.py_min hi t)).
Proof.
  intros Hlh Hll Hhh. unfold Fake.between, Fake.py_min.
  destruct (PrimFloat.ltb t hi) eqn:Hth; unfold Fake.py_max.
  - destruct (PrimFloat.ltb lo t) eqn:Hlt.
    + split; apply ltb_leb; assumption.
    + split; assumption.
  - destruct (PrimFloat.ltb lo hi) eqn:Hlt; split; assumption.
Qed.

Lemma SFcompare_Lt_antisym (x y : spec_float) :
  SFcompare x y = Some Lt -> SFcompare y x = Some Gt.
Proof.
  destruct x as [sx|sx| |sx mx ex], y as [sy|sy| |sy my ey]; cbn;
    try discriminate;
    try (destruct sx; discriminate || reflexivity);
    try (destruct sy; discriminate || reflexivity);
    try (destruct sx, sy; discriminate || reflexivity).
  destruct sx, sy; try discriminate; try reflexivity.
  all: change PosDef.Pos.compare_cont with Pos.compare_cont;
    change (Pos.compare_cont Eq) with Pos.compare.
  all: destruct (Z.compare_spec ex ey), (Z.compare_spec ey ex);
    try discriminate; try reflexivity; try lia; subst;
    destruct (Pos.compare_spec mx my), (Pos.compare_spec my mx);
    cbn; try discriminate; try reflexivity; try lia.
Qed.

Lemma ltb_antisym (x y : float) :
  PrimFloat.ltb x y = true -> PrimFloat.ltb y x = false.
Proof.
  rewrite !ltb_spec. unfold SFltb.
  destruct (SFcompare (Prim2SF x) (Prim2SF y)) as [[| |]|] eqn:Hxy;
    try discriminate.
  intros _. rewrite (SFcompare_Lt_antisym _ _ Hxy). reflexivity.
Qed.

Lemma SFcompare_nan_l (x y : spec_float) :
  SFcompare x x <> Some Eq -> SFcompare x y = None /\ SFcompare y x = None.
Proof.
  destruct x as [sx|sx| |sx mx ex]; cbn.
  - intros Hne. exfalso. apply Hne. reflexivity.
  - intros Hne. exfalso. apply Hne. destruct sx; reflexivity.
  - intros _. split; [reflexivity|destruct y; reflexivity].
  - intros Hne. exfalso. apply Hne.
    rewrite Z.compare_refl.
    change (PosDef.Pos.compare_cont Eq mx mx) with (Pos.compare mx mx).
    rewrite Pos.compare_refl. destruct sx; reflexivity.
Qed.

Lemma ltb_nan (t x : float) :
  PrimFloat.is_nan t = true ->
  PrimFloat.ltb t x = false /\ PrimFloat.ltb x t = false.
Proof.
  unfold PrimFloat.is_nan. rewrite eqb_spec, !ltb_spec. unfold SFeqb, SFltb.
  intros Hnan.
  assert (Hne : SFcompare (Prim2SF t) (Prim2SF t) <> Some Eq).
  { intros Heq. rewrite Heq in Hnan. discriminate Hnan. }
  destruct (SFcompare_nan_l (Prim2SF t) (Prim2SF x) Hne) as [-> ->].
  split; reflexivity.
Qed.

Lemma SFcompare_Lt_trans (x y z : spec_float) :
  SFcompare x y = Some Lt -> SFcompare y z = Some Lt ->
  SFcompare x z = Some Lt.
Proof.
  destruct x as [sx|sx| |sx mx ex], y as [sy|sy| |sy my ey],
    z as [sz|sz| |sz mz ez]; cbn;
    try discriminate;
    try (destruct sx; try discriminate; try reflexivity;
         destruct sy; try discriminate; try reflexivity;
         destruct sz; try discriminate; try reflexivity; fail);
    try (destruct sy; try discriminate; try reflexivity;
         destruct sz; try discriminate; try reflexivity; fail);
    try (destruct sx; try discriminate; try reflexivity;
         destruct sz; try discriminate; try reflexivity; fail).
  all: destruct sx, sy, sz; try discriminate; try reflexivity.
  all: change PosDef.Pos.compare_cont with Pos.compare_cont;
    change (Pos.compare_cont Eq) with Pos.compare.
  - destruct (Z.compare_spec ex ey), (Z.compare_spec ey ez),
      (Z.compare_spec ex ez); try discriminate; try reflexivity; try lia;
      subst;
      destruct (Pos.compare_spec mx my), (Pos.compare_spec my mz),
        (Pos.compare_spec mx mz); cbn; try discriminate; try reflexivity;
        try lia.
  - destruct (Z.compare_spec ex ey), (Z.compare_spec ey ez),
      (Z.compare_spec ex ez); try discriminate; try reflexivity; try lia;
      subst;
      destruct (Pos.compare_spec mx my), (Pos.compare_spec my mz),
        (Pos.compare_spec mx mz); cbn; try discriminate; try reflexivity;
        try lia.
Qed.

Lemma ltb_trans (x y z : float) :
  PrimFloat.ltb x y = true -> PrimFloat.ltb y z = true ->
  PrimFloat.ltb x z = true.
Proof.
  rewrite !ltb_spec. unfold SFltb.
  destruct (SFcompare (Prim2SF x) (Prim2SF y)) as [[| |]|] eqn:Hxy;
    try discriminate.
  destruct (SFcompare (Prim2SF y) (Prim2SF z)) as [[| |]|] eqn:Hyz;
    try discriminate.
  intros _ _. rewrite (SFcompare_Lt_trans _ _ _ Hxy Hyz). reflexivity.
Qed.

(** Python's [max(lo, min(hi, t))] on floats, case by case. *)
Lemma clamp_cases (lo hi t : float) :
  PrimFloat.ltb lo hi = true ->
  (PrimFloat.ltb t lo = true -> Fake.py_max lo (Fake.py_min hi t) = lo)
  /\ (PrimFloat.ltb lo t = true -> PrimFloat.ltb t hi = true ->
      Fake.py_max lo (Fake.py_min hi t) = t)
  /\ (PrimFloat.ltb hi t = true -> Fake.py_max lo (Fake.py_min hi t) = hi)
  /\ (PrimFloat.is_nan t = true -> Fake.py_max lo (Fake.py_min hi t) = hi).
Proof.
  intros Hlh. unfold Fake.py_max, Fake.py_min. repeat split.
  - intros Htl.
    rewrite (ltb_trans t lo hi Htl Hlh), (ltb_antisym t lo Htl). reflexivity.
  - intros Hlt Hth. rewrite Hth, Hlt. reflexivity.
  - intros Hht. rewrite (ltb_antisym hi t Hht), Hlh. reflexivity.
  - intros Hnan. destruct (ltb_nan t hi Hnan) as [-> _].
    rewrite Hlh. reflexivity.
Qed.

Lemma SFcompare_Eq_compat (x y : spec_float) :
  SFcompare x y = Some Eq ->
  SFcompare y x = Some Eq /\ forall z, SFcompare x z = SFcompare y z.
Proof.
  destruct x as [sx|sx| |sx mx ex], y as [sy|sy| |sy my ey]; cbn;
    try discriminate;
    try (destruct sx; discriminate);
    try (destruct sy; discriminate).
  - intros _. split; reflexivity.
  - destruct sx, sy; try discriminate; intros _; split; reflexivity.
  - change PosDef.Pos.compare_cont with Pos.compare_cont;
      change (Pos.compare_cont Eq) with Pos.compare.
    destruct sx, sy; try discriminate;
      destruct (Z.compare_spec ex ey); try discriminate; subst;
      destruct (Pos.compare_spec mx my); try discriminate; subst;
      intros _; rewrite Z.compare_refl, Pos.compare_refl;
      split; reflexivity.
Qed.

(** Floats that compare equal are not below one another and compare alike
    with every third float. *)
Lemma eqb_ltb (x y : float) :
  PrimFloat.eqb x y = true ->
  PrimFloat.ltb x y = false /\ PrimFloat.ltb y x = false
  /\ forall z, PrimFloat.ltb x z = PrimFloat.ltb y z.
Proof.
  rewrite eqb_spec. unfold SFeqb.
  destruct (SFcompare (Prim2SF x) (Prim2SF y)) as [[| |]|] eqn:Hxy;
    try discriminate.
  intros _. destruct (SFcompare_Eq_compat _ _ Hxy) as [Hyx Hz].
  rewrite !ltb_spec. unfold SFltb. rewrite Hxy, Hyx.
  repeat split. intros z. rewrite !ltb_spec. unfold SFltb.
  rewrite Hz. reflexivity.
Qed.

(** Python's [max(lo, min(hi, draw))] is the draw clamped into [lo, hi]. *)
Lemma clamp_clamped (lo hi draw : float) :
  PrimFloat.ltb lo hi = true ->
  PrimFloat.leb lo lo = true ->
  PrimFloat.leb hi hi = true ->
  Fake.clamped lo hi draw (Fake.py_max lo (Fake.py_min hi draw)).
Proof.
  intros Hlh Hll Hhh.
  destruct (clamp_cases lo hi draw Hlh) as (Hlow & Hin & Hhigh & Hnan).
  split; [apply clamp_between; [apply ltb_leb|..]; assumption|].
  split; [exact Hin|].
  split.
  - intros [Hlt|Heq]; [exact (Hlow Hlt)|].
    destruct (eqb_ltb draw lo Heq) as (_ & Hld & Hz).
    unfold Fake.py_max, Fake.py_min. rewrite (Hz hi), Hlh, Hld. reflexivity.
  - intros [Hgt|[Heq|Hn]]; [exact (Hhigh Hgt)| |exact (Hnan Hn)].
    destruct (eqb_ltb draw hi Heq) as (Hdh & _ & _).
    unfold Fake.py_max, Fake.py_min. rewrite Hdh, Hlh. reflexivity.
Qed.

Section FakeDriver.
Context {G : Type}.
Variable gauss : float -> float -> G -> float * G.
Variable self : Fake.SHT30Fake.

Lemma _rand_temperature_between (g : G) :
  Fake.between (-40)%float 125%float (fst (Fake._rand_temperature gauss self g)).
Proof.
  unfold Fake._rand_temperature.
  destruct (gauss (Fake.temperature self) (Fake.temperature_sigma self) g)
    as [t g'].
  apply clamp_between; reflexivity.
Qed.

Lemma _rand_humidity_between (g : G) :
  Fake.between 0%float 100%float (fst (Fake._rand_humidity gauss self g)).
Proof.
  unfold Fake._rand_humidity.
  destruct (gauss (Fake.humidity self) (Fake.humidity_sigma self) g)
    as [h g'].
  apply clamp_between; reflexivity.
Qed.

(** C9. The accessors of the simulated driver are total: they return a
    value whatever the generator draws, and that value is the draw clamped:
    the temperature lies in [-40, 125] and the humidity in [0, 100] for
    every drawn float, NaN and the infinities included; a draw strictly
    inside the range is returned as it is, a draw at or below the lower
    bound gives the lower bound, a draw at or above the upper bound, or
    NaN, gives the upper bound.  [read] makes two draws, one per channel,
    each with the mean and deviation of its own channel.  The two samples
    are independent of one another: with the generator seen as the
    sequence of the variates it hands out, the temperature of a [read] is
    determined by the variate at the cursor alone and the humidity by the
    next variate alone, and the [read] leaves the cursor two places on, so
    that no variate serves twice. *)
Theorem fake_readings_clamped (g : G) :
  let draw_t := gauss (Fake.temperature self) (Fake.temperature_sigma self) g in
  let draw_h :=
    gauss (Fake.humidity self) (Fake.humidity_sigma self) (snd draw_t) in
  let draw_h0 := gauss (Fake.humidity self) (Fake.humidity_sigma self) g in
  (exists t h,
     Fake.read gauss self g = ((t, h), snd draw_h)
     /\ Fake.clamped (-40)%float 125%float (fst draw_t) t
     /\ Fake.clamped 0%float 100%float (fst draw_h) h)
  /\ (exists t,
        Fake.read_temperature gauss self g = (t, snd draw_t)
        /\ Fake.clamped (-40)%float 125%float (fst draw_t) t)
  /\ (exists h,
        Fake.read_humidity gauss self g = (h, snd draw_h0)
        /\ Fake.clamped 0%float 100%float (fst draw_h0) h)
  /\ (forall (z z' : nat -> float) (cursor : nat),
        (z cursor = z' cursor ->
         fst (fst (Fake.read (Fake.gauss_from z) self cursor))
         = fst (fst (Fake.read (Fake.gauss_from z') self cursor)))
        /\ (z (S cursor) = z' (S cursor) ->
            snd (fst (Fake.read (Fake.gauss_from z) self cursor))
            = snd (fst (Fake.read (Fake.gauss_from z') self cursor)))
        /\ snd (Fake.read (Fake.gauss_from z) self cursor) = S (S cursor)).
Proof.
  intros draw_t draw_h draw_h0. subst draw_h draw_h0 draw_t.
  unfold Fake.read, Fake.read_temperature, Fake.read_humidity,
    Fake._rand_temperature, Fake._rand_humidity.
  split; [|split; [|split]].
  - destruct (gauss (Fake.temperature self) (Fake.temperature_sigma self) g)
      as [t g1]. cbn [fst snd].
    destruct (gauss (Fake.humidity self) (Fake.humidity_sigma self) g1)
      as [h g2]. cbn [fst snd].
    eexists; eexists. split; [reflexivity|].
    split; apply clamp_clamped; reflexivity.
  - destruct (gauss (Fake.temperature self) (Fake.temperature_sigma self) g)
      as [t g1]. cbn [fst snd].
    eexists. split; [reflexivity|]. apply clamp_clamped; reflexivity.
  - destruct (gauss (Fake.humidity self) (Fake.humidity_sigma self) g)
      as [h g1]. cbn [fst snd].
    eexists. split; [reflexivity|]. apply clamp_clamped; reflexivity.
  - intros z z' cursor. unfold Fake.gauss_from. cbn [fst snd].
    split; [|split].
    + intros ->. reflexivity.
    + intros ->. reflexivity.
    + reflexivity.
Qed.

End FakeDriver.

Lemma fake_readings_clamped_witness :
  (exists t,
     Fake.read_temperature Stub.draw_nan Fake.default 0%nat = (t, 1%nat)
     /\ Fake.clamped (-40)%float 125%float nan t)
  /\ (exists t h,
        Fake.read Stub.draw_mean Fake.default 0%nat = ((t, h), 2%nat)
        /\ Fake.clamped (-40)%float 125%float 25%float t
        /\ Fake.clamped 0%float 100%float 50%float h).
Proof.
  split.
  - exact (proj1 (proj2 (fake_readings_clamped Stub.draw_nan Fake.default
                           0%nat))).
  - exact (proj1 (fake_readings_clamped Stub.draw_mean Fake.default 0%nat)).
Defined.

(** The clamp at work on draws far outside the range and on NaN. *)
Example fake_read_extreme_draws :
  Fake.read (fun mu sigma (g : nat) =>
               (match g with
                | O => infinity
                | _ => nan
                end, S g)) Fake.default 0%nat
  = ((125%float, 100%float), 2%nat).
Proof. reflexivity. Qed.

(* ------------------------------------------------------------------ *)
(** ** The real driver: one measurement cycle *)

Section RealDriver.
Context {W H : Type}.
Variable env : Env W H.
Variable self : Driver.SHT30.

Let n := Driver.bus_number self.
Let addr := Driver.address self.
Let delay := Driver.measurement_delay_seconds self.

Ltac unfold_cycle :=
  unfold run, Driver._measure_raw, Driver.with_bus, Driver.call_codec,
    try_except_OSError, finally, bind, call, lift, raise,
    Driver._COMMAND_SINGLE_HIGH, Driver._READ_FRAME_LENGTH;
  cbn [fst snd app].

Ltac step H := rewrite H; cbn [fst snd app].

(** The three accessors run [_measure_raw] once and convert its result. *)
Lemma read_as_measure_raw (s : W * list (event H)) :
  Driver.read env self s =
  (fst (Driver._measure_raw env self s),
   map_result (fun raw : Z * Z =>
                 (Conversion.raw_to_celsius (fst raw),
                  Conversion.raw_to_humidity (snd raw)))
              (snd (Driver._measure_raw env self s))).
Proof.
  unfold Driver.read, bind, ret.
  destruct (Driver._measure_raw env self s) as [s' [[a b]|e]]; reflexivity.
Qed.

Lemma read_temperature_as_measure_raw (s : W * list (event H)) :
  Driver.read_temperature env self s =
  (fst (Driver._measure_raw env self s),
   map_result (fun raw : Z * Z => Conversion.raw_to_celsius (fst raw))
              (snd (Driver._measure_raw env self s))).
Proof.
  unfold Driver.read_temperature, bind, ret.
  destruct (Driver._measure_raw env self s) as [s' [[a b]|e]]; reflexivity.
Qed.

Lemma read_humidity_as_measure_raw (s : W * list (event H)) :
  Driver.read_humidity env self s =
  (fst (Driver._measure_raw env self s),
   map_result (fun raw : Z * Z => Conversion.raw_to_humidity (snd raw))
              (snd (Driver._measure_raw env self s))).
Proof.
  unfold Driver.read_humidity, bind, ret.
  destruct (Driver._measure_raw env self s) as [s' [[a b]|e]]; reflexivity.
Qed.

Lemma surfaced_spec {A} (s : W * list (event H)) (e : exn) :
  match e with
  | OSError msg =>
      (s, @Raise A (SHT30Error ("I2C communication failed: " ++ msg)
                               (OSError msg)))
  | _ => (s, Raise e)
  end = (s, Raise (Driver.surfaced e)).
Proof. destruct e; reflexivity. Qed.

(** The bus cannot be acquired: nothing else is called. *)
Lemma measure_raw_acquire_raises (w w1 : W) (e : exn) :
  bus_factory env n w = (w1, Raise e) ->
  run (Driver._measure_raw env self) w =
  ((w1, [EvAcquire n]), Raise (Driver.surfaced e)).
Proof.
  intros Hacq. unfold_cycle. fold n. step Hacq.
  destruct e; reflexivity.
Qed.

(** The trigger write raises: the handle is released and the cycle ends. *)
Lemma measure_raw_write_raises (w w1 w2 : W) (bus : H) (e : exn) :
  bus_factory env n w = (w1, Ok bus) ->
  write_i2c_block_data env bus addr 0x24 [0x00] w1 = (w2, Raise e) ->
  run (Driver._measure_raw env self) w =
  ((bus_exit env bus w2,
    [EvAcquire n; EvWrite bus addr 0x24 [0x00]; EvRelease bus]),
   Raise (Driver.surfaced e)).
Proof.
  intros Hacq Hwr. unfold_cycle. fold n addr. step Hacq. step Hwr.
  destruct e; reflexivity.
Qed.

(** The wait raises. *)
Lemma measure_raw_sleep_raises (w w1 w2 w3 : W) (bus : H) (e : exn) :
  bus_factory env n w = (w1, Ok bus) ->
  write_i2c_block_data env bus addr 0x24 [0x00] w1 = (w2, Ok tt) ->
  time_sleep env delay w2 = (w3, Raise e) ->
  run (Driver._measure_raw env self) w =
  ((bus_exit env bus w3,
    [EvAcquire n; EvWrite bus addr 0x24 [0x00]; EvSleep delay;
     EvRelease bus]),
   Raise (Driver.surfaced e)).
Proof.
  intros Hacq Hwr Hsl. unfold_cycle. fold n addr delay.
  step Hacq. step Hwr. step Hsl.
  destruct e; reflexivity.
Qed.

(** The block read raises. *)
Lemma measure_raw_read_raises (w w1 w2 w3 w4 : W) (bus : H) (e : exn) :
  bus_factory env n w = (w1, Ok bus) ->
  write_i2c_block_data env bus addr 0x24 [0x00] w1 = (w2, Ok tt) ->
  time_sleep env delay w2 = (w3, Ok tt) ->
  read_i2c_block_data env bus addr 0x00 6 w3 = (w4, Raise e) ->
  run (Driver._measure_raw env self) w =
  ((bus_exit env bus w4, Driver.cycle_calls self bus),
   Raise (Driver.surfaced e)).
Proof.
  intros Hacq Hwr Hsl Hrd. unfold_cycle. fold n addr delay.
  step Hacq. step Hwr. step Hsl. step Hrd.
  destruct e; reflexivity.
Qed.

(** Every call returns: the cycle is complete, and the codec is called
    unless the data read are not bytes. *)
Lemma measure_raw_calls_return (w w1 w2 w3 w4 : W) (bus : H) (data : list Z) :
  bus_factory env n w = (w1, Ok bus) ->
  write_i2c_block_data env bus addr 0x24 [0x00] w1 = (w2, Ok tt) ->
  time_sleep env delay w2 = (w3, Ok tt) ->
  read_i2c_block_data env bus addr 0x00 6 w3 = (w4, Ok data) ->
  run (Driver._measure_raw env self) w =
  match Driver.bytes data with
  | Ok frame =>
      ((bus_exit env bus w4, Driver.cycle_calls self bus ++ [EvCodec frame]),
       Codec.parse_measurement_frame frame)
  | Raise e => ((bus_exit env bus w4, Driver.cycle_calls self bus), Raise e)
  end.
Proof.
  intros Hacq Hwr Hsl Hrd. unfold_cycle. fold n addr delay.
  step Hacq. step Hwr. step Hsl. step Hrd.
  unfold Driver.bytes. destruct (forallb is_byteb data); reflexivity.
Qed.

End RealDriver.

(* ------------------------------------------------------------------ *)
(** ** The real driver: the accessors *)

Section Accessors.
Context {W H : Type}.
Variable env : Env W H.
Variable self : Driver.SHT30.

Let n := Driver.bus_number self.
Let addr := Driver.address self.
Let delay := Driver.measurement_delay_seconds self.

Let to_pair (raw : Z * Z) : float * float :=
  (Conversion.raw_to_celsius (fst raw), Conversion.raw_to_humidity (snd raw)).
Let to_celsius (raw : Z * Z) : float := Conversion.raw_to_celsius (fst raw).
Let to_humidity (raw : Z * Z) : float := Conversion.raw_to_humidity (snd raw).

(** The accessors make the calls of [_measure_raw], leave its world and
    convert its outcome. *)
Lemma accessors_follow_measure_raw (w : W) :
  let r := run (Driver._measure_raw env self) w in
  run (Driver.read env self) w = (fst r, map_result to_pair (snd r))
  /\ run (Driver.read_temperature env self) w
     = (fst r, map_result to_celsius (snd r))
  /\ run (Driver.read_humidity env self) w
     = (fst r, map_result to_humidity (snd r)).
Proof.
  unfold run. cbv zeta. split; [|split].
  - apply read_as_measure_raw.
  - apply read_temperature_as_measure_raw.
  - apply read_humidity_as_measure_raw.
Qed.

(** C2, amended. In every invocation of [read] (and of [read_temperature]
    and [read_humidity]) in which the bus is acquired and neither the
    trigger write nor the wait raises, the driver makes exactly one trigger
    write of the single-shot command (0x24, then the data byte 0x00) to the
    configured address, then one wait of the configured delay, then one
    block read of 6 bytes at register 0x00, in that order and on the handle
    it acquired, whether that read returns or raises; it then releases the
    handle and, when the read returned bytes, calls the codec.  On success
    the result is the conversion functions applied to the channels the
    codec decoded. *)
Theorem read_cycle_in_order
  (w w1 w2 w3 w4 : W) (bus : H) (answer : result (list Z))
  (Hacquire : bus_factory env n w = (w1, Ok bus))
  (Hwrite : write_i2c_block_data env bus addr 0x24 [0x00] w1 = (w2, Ok tt))
  (Hsleep : time_sleep env delay w2 = (w3, Ok tt))
  (Hread : read_i2c_block_data env bus addr 0x00 6 w3 = (w4, answer)) :
  let frame_read :=
    match answer with
    | Ok data => Driver.bytes data
    | Raise e => Raise (Driver.surfaced e)
    end in
  let calls :=
    [EvAcquire n; EvWrite bus addr 0x24 [0x00]; EvSleep delay;
     EvRead bus addr 0x00 6; EvRelease bus]
    ++ match frame_read with
       | Ok frame => [EvCodec frame]
       | Raise _ => []
       end in
  let decoded :=
    match frame_read with
    | Ok frame => Codec.parse_measurement_frame frame
    | Raise e => Raise e
    end in
  (calls_of (run (Driver.read env self) w) = calls
   /\ calls_of (run (Driver.read_temperature env self) w) = calls
   /\ calls_of (run (Driver.read_humidity env self) w) = calls)
  /\ (Driver.count Driver.is_write calls = 1%nat
      /\ Driver.count Driver.is_sleep calls = 1%nat
      /\ Driver.count Driver.is_read calls = 1%nat)
  /\ (outcome_of (run (Driver.read env self) w) = map_result to_pair decoded
      /\ outcome_of (run (Driver.read_temperature env self) w)
         = map_result to_celsius decoded
      /\ outcome_of (run (Driver.read_humidity env self) w)
         = map_result to_humidity decoded).
Proof.
  intros frame_read calls decoded.
  destruct (accessors_follow_measure_raw w) as (Hr & Ht & Hh).
  cbv zeta in Hr, Ht, Hh. unfold calls_of, outcome_of.
  rewrite Hr, Ht, Hh. cbn [fst snd].
  subst calls decoded frame_read.
  destruct answer as [data|e].
  - rewrite (measure_raw_calls_return env self w w1 w2 w3 w4 bus data
               Hacquire Hwrite Hsleep Hread).
    unfold Driver.cycle_calls. fold n addr delay.
    destruct (Driver.bytes data) as [frame|e]; cbn [fst snd];
      repeat split; reflexivity.
  - rewrite (measure_raw_read_raises env self w w1 w2 w3 w4 bus e
               Hacquire Hwrite Hsleep Hread).
    unfold Driver.cycle_calls. fold n addr delay. cbn [fst snd].
    repeat split; reflexivity.
Qed.

(** C6. When the trigger write raises an I/O failure ([OSError]), each
    accessor fails with the driver's transport error, an [SHT30Error] whose
    cause is the [OSError] that was raised; the write was made once, the
    handle was released, and neither the wait, the block read nor the codec
    was called. *)
Theorem read_trigger_write_fails
  (w w1 w2 : W) (bus : H) (msg : string)
  (Hacquire : bus_factory env n w = (w1, Ok bus))
  (Hwrite : write_i2c_block_data env bus addr 0x24 [0x00] w1
            = (w2, Raise (OSError msg))) :
  let calls := [EvAcquire n; EvWrite bus addr 0x24 [0x00]; EvRelease bus] in
  let error :=
    SHT30Error ("I2C communication failed: " ++ msg) (OSError msg) in
  (outcome_of (run (Driver.read env self) w) = Raise error
   /\ outcome_of (run (Driver.read_temperature env self) w) = Raise error
   /\ outcome_of (run (Driver.read_humidity env self) w) = Raise error)
  /\ (calls_of (run (Driver.read env self) w) = calls
      /\ calls_of (run (Driver.read_temperature env self) w) = calls
      /\ calls_of (run (Driver.read_humidity env self) w) = calls)
  /\ Driver.count Driver.is_write calls = 1%nat
  /\ Driver.count Driver.is_codec calls = 0%nat.
Proof.
  intros calls error.
  destruct (accessors_follow_measure_raw w) as (Hr & Ht & Hh).
  cbv zeta in Hr, Ht, Hh. unfold calls_of, outcome_of.
  rewrite Hr, Ht, Hh. cbn [fst snd].
  rewrite (measure_raw_write_raises env self w w1 w2 bus (OSError msg)
             Hacquire Hwrite).
  repeat split; reflexivity.
Qed.

(** C10. When the transport hands over a frame of 6 bytes with correct
    checksums, [read] returns [raw_to_celsius] of the first channel (bytes
    0-1, big-endian) paired with [raw_to_humidity] of the second channel
    (bytes 3-4), [read_temperature] returns the former alone and
    [read_humidity] the latter alone. *)
Theorem read_channel_assignment
  (w w1 w2 w3 w4 : W) (bus : H) (a1 a0 b1 b0 : Z)
  (Hbytes : Forall is_byte [a1; a0; b1; b0])
  (Hacquire : bus_factory env n w = (w1, Ok bus))
  (Hwrite : write_i2c_block_data env bus addr 0x24 [0x00] w1 = (w2, Ok tt))
  (Hsleep : time_sleep env delay w2 = (w3, Ok tt))
  (Hread : read_i2c_block_data env bus addr 0x00 6 w3
           = (w4, Ok [a1; a0; Codec.crc8 [a1; a0];
                      b1; b0; Codec.crc8 [b1; b0]])) :
  let channel_a := a1 * 256 + a0 in
  let channel_b := b1 * 256 + b0 in
  outcome_of (run (Driver._measure_raw env self) w) = Ok (channel_a, channel_b)
  /\ outcome_of (run (Driver.read env self) w)
     = Ok (Conversion.raw_to_celsius channel_a,
           Conversion.raw_to_humidity channel_b)
  /\ outcome_of (run (Driver.read_temperature env self) w)
     = Ok (Conversion.raw_to_celsius channel_a)
  /\ outcome_of (run (Driver.read_humidity env self) w)
     = Ok (Conversion.raw_to_humidity channel_b).
Proof.
  intros channel_a channel_b.
  repeat match goal with
         | Hf : Forall _ (_ :: _) |- _ => inversion_clear Hf
         end.
  assert (Hframe : Driver.bytes [a1; a0; Codec.crc8 [a1; a0];
                                 b1; b0; Codec.crc8 [b1; b0]]
                   = Ok [a1; a0; Codec.crc8 [a1; a0];
                         b1; b0; Codec.crc8 [b1; b0]]).
  { unfold Driver.bytes.
    assert (Hall : forall b, is_byte b -> is_byteb b = true).
    { intros b [Hb0 Hb1]. unfold is_byteb.
      apply andb_true_iff. split; [apply Z.leb_le|apply Z.ltb_lt]; assumption. }
    cbn [forallb].
    rewrite !Hall by (assumption || apply crc8_pair_byte). reflexivity. }
  destruct (accessors_follow_measure_raw w) as (Hr & Ht & Hh).
  cbv zeta in Hr, Ht, Hh. unfold outcome_of.
  rewrite Hr, Ht, Hh. cbn [fst snd].
  rewrite (measure_raw_calls_return env self w w1 w2 w3 w4 bus _
             Hacquire Hwrite Hsleep Hread).
  rewrite Hframe. cbn [fst snd].
  rewrite parse_six_match by assumption.
  repeat split; reflexivity.
Qed.

End Accessors.

(* ------------------------------------------------------------------ *)
(** ** The real driver: the scope of the handle *)

Section HandleScope.
Context {W H : Type}.
Variable env : Env W H.
Variable self : Driver.SHT30.

Let n := Driver.bus_number self.
Let addr := Driver.address self.
Let delay := Driver.measurement_delay_seconds self.

(** C7. Once the handle is acquired, every run of the cycle releases it,
    whatever happens next: the log of calls holds exactly one release of
    that handle, the world left behind is one on which the release acted,
    no bus transfer follows the release, and the codec is not called before
    it.  Either the block of the [with] statement raised, and the run ends
    with that failure right after the release, or the frame is handed to
    the codec after the release and the run ends with what the codec
    returned or raised, unchanged.  The three accessors make the same calls
    and pass a failure on as it is. *)
Theorem handle_released_on_every_path
  (w w1 : W) (bus : H)
  (Hacquire : bus_factory env n w = (w1, Ok bus)) :
  let r := run (Driver._measure_raw env self) w in
  (exists pre post w',
     calls_of r = pre ++ EvRelease bus :: post
     /\ world_of r = bus_exit env bus w'
     /\ Driver.count Driver.is_release pre = 0%nat
     /\ Driver.count Driver.is_codec pre = 0%nat
     /\ Driver.count Driver.is_release post = 0%nat
     /\ Driver.count Driver.is_write post = 0%nat
     /\ Driver.count Driver.is_read post = 0%nat
     /\ ((post = [] /\ exists e, outcome_of r = Raise e)
         \/ (exists frame,
               post = [EvCodec frame]
               /\ outcome_of r = Codec.parse_measurement_frame frame)))
  /\ (calls_of (run (Driver.read env self) w) = calls_of r
      /\ calls_of (run (Driver.read_temperature env self) w) = calls_of r
      /\ calls_of (run (Driver.read_humidity env self) w) = calls_of r)
  /\ (forall e, outcome_of r = Raise e ->
        outcome_of (run (Driver.read env self) w) = Raise e
        /\ outcome_of (run (Driver.read_temperature env self) w) = Raise e
        /\ outcome_of (run (Driver.read_humidity env self) w) = Raise e).
Proof.
  intros r.
  destruct (accessors_follow_measure_raw env self w) as (Hr & Ht & Hh).
  cbv zeta in Hr, Ht, Hh. fold r in Hr, Ht, Hh.
  split; [|split].
  - destruct (write_i2c_block_data env bus addr 0x24 [0x00] w1)
      as [w2 [[]|e2]] eqn:Hwrite.
    2:{ exists [EvAcquire n; EvWrite bus addr 0x24 [0x00]], [], w2.
        subst r.
        rewrite (measure_raw_write_raises env self w w1 w2 bus e2
                   Hacquire Hwrite).
        cbn. repeat split; try reflexivity. left. eauto. }
    destruct (time_sleep env delay w2) as [w3 [[]|e3]] eqn:Hsleep.
    2:{ exists [EvAcquire n; EvWrite bus addr 0x24 [0x00]; EvSleep delay],
          [], w3.
        subst r.
        rewrite (measure_raw_sleep_raises env self w w1 w2 w3 bus e3
                   Hacquire Hwrite Hsleep).
        cbn. repeat split; try reflexivity. left. eauto. }
    destruct (read_i2c_block_data env bus addr 0x00 6 w3)
      as [w4 [data|e4]] eqn:Hread.
    2:{ exists [EvAcquire n; EvWrite bus addr 0x24 [0x00]; EvSleep delay;
                EvRead bus addr 0x00 6], [], w4.
        subst r.
        rewrite (measure_raw_read_raises env self w w1 w2 w3 w4 bus e4
                   Hacquire Hwrite Hsleep Hread).
        cbn. repeat split; try reflexivity. left. eauto. }
    subst r.
    rewrite (measure_raw_calls_return env self w w1 w2 w3 w4 bus data
               Hacquire Hwrite Hsleep Hread).
    destruct (Driver.bytes data) as [frame|e5].
    + exists [EvAcquire n; EvWrite bus addr 0x24 [0x00]; EvSleep delay;
              EvRead bus addr 0x00 6], [EvCodec frame], w4.
      cbn. repeat split; try reflexivity. right. eauto.
    + exists [EvAcquire n; EvWrite bus addr 0x24 [0x00]; EvSleep delay;
              EvRead bus addr 0x00 6], [], w4.
      cbn. repeat split; try reflexivity. left. eauto.
  - unfold calls_of. rewrite Hr, Ht, Hh. repeat split; reflexivity.
  - intros e He. unfold outcome_of in *. rewrite Hr, Ht, Hh. cbn [snd].
    rewrite He. repeat split; reflexivity.
Qed.

End HandleScope.

(* ------------------------------------------------------------------ *)
(** ** The accessors on the transport double *)

Lemma good_frame_decodes :
  Codec.parse_measurement_frame Stub.good_frame = Ok (0x61A8, 0x7CB4).
Proof. reflexivity. Qed.

(** The example frame of the specification does not carry the CRC-8 of its
    channels (0x65 and 0x75); the codec rejects it. *)
Lemma spec_example_frame_rejected :
  Codec.crc8 [0x61; 0xA8] = 0x65 /\ Codec.crc8 [0x7C; 0xB4] = 0x75
  /\ Codec.parse_measurement_frame Stub.spec_example_frame
     = Raise (ProtocolError ChecksumMismatch).
Proof. repeat split; reflexivity. Qed.

(** C2, as stated, fails: on a bus whose trigger write raises, [read]
    makes the write and then neither waits nor reads. *)
Lemma read_stops_at_failed_write :
  let r := run (Driver.read (Stub.env Stub.write_failing) Driver.default)
               0%nat in
  calls_of r = [EvAcquire 1; EvWrite 7 0x44 0x24 [0x00]; EvRelease 7]
  /\ Driver.count Driver.is_sleep (calls_of r) = 0%nat
  /\ Driver.count Driver.is_read (calls_of r) = 0%nat
  /\ outcome_of r
     = Raise (SHT30Error
                "I2C communication failed: [Errno 121] Remote I/O error"
                (OSError "[Errno 121] Remote I/O error")).
Proof. cbv zeta. repeat split; reflexivity. Qed.

Lemma read_cycle_in_order_witness :
  calls_of (run (Driver.read (Stub.env (Stub.answering Stub.good_frame))
                             Driver.default) 0%nat)
  = [EvAcquire 1; EvWrite 7 0x44 0x24 [0x00];
     EvSleep 0x1.47ae147ae147bp-6%float; EvRead 7 0x44 0x00 6; EvRelease 7;
     EvCodec Stub.good_frame]
  /\ outcome_of (run (Driver.read (Stub.env (Stub.answering Stub.good_frame))
                                  Driver.default) 0%nat)
     = Ok (Conversion.raw_to_celsius 0x61A8, Conversion.raw_to_humidity 0x7CB4).
Proof.
  pose proof (read_cycle_in_order
                (Stub.env (Stub.answering Stub.good_frame)) Driver.default
                0%nat 1%nat 1%nat 1%nat 1%nat 7 (Ok Stub.good_frame)
                eq_refl eq_refl eq_refl eq_refl) as Hcycle.
  cbv zeta in Hcycle.
  destruct Hcycle as ((Hcalls & _) & _ & (Hout & _)).
  split; [exact Hcalls|exact Hout].
Defined.

Lemma read_trigger_write_fails_witness :
  outcome_of (run (Driver.read (Stub.env Stub.write_failing) Driver.default)
                  0%nat)
  = Raise (SHT30Error
             ("I2C communication failed: " ++ "[Errno 121] Remote I/O error")
             (OSError "[Errno 121] Remote I/O error"))
  /\ Driver.count Driver.is_codec
       (calls_of (run (Driver.read (Stub.env Stub.write_failing)
                                   Driver.default) 0%nat)) = 0%nat.
Proof.
  pose proof (read_trigger_write_fails
                (Stub.env Stub.write_failing) Driver.default
                0%nat 1%nat 1%nat 7 "[Errno 121] Remote I/O error"
                eq_refl eq_refl) as Hfail.
  cbv zeta in Hfail.
  destruct Hfail as ((Hout & _) & (Hcalls & _) & _ & Hcodec).
  split; [exact Hout|]. rewrite Hcalls. exact Hcodec.
Defined.

Lemma read_channel_assignment_witness :
  outcome_of (run (Driver.read (Stub.env (Stub.answering Stub.good_frame))
                               Driver.default) 0%nat)
  = Ok (Conversion.raw_to_celsius 0x61A8, Conversion.raw_to_humidity 0x7CB4)
  /\ outcome_of (run (Driver.read_temperature
                        (Stub.env (Stub.answering Stub.good_frame))
                        Driver.default) 0%nat)
     = Ok (Conversion.raw_to_celsius 0x61A8)
  /\ outcome_of (run (Driver.read_humidity
                        (Stub.env (Stub.answering Stub.good_frame))
                        Driver.default) 0%nat)
     = Ok (Conversion.raw_to_humidity 0x7CB4).
Proof.
  assert (Hbytes : Forall is_byte [0x61; 0xA8; 0x7C; 0xB4])
    by (repeat apply Forall_cons; try apply Forall_nil; unfold is_byte; lia).
  pose proof (read_channel_assignment
                (Stub.env (Stub.answering Stub.good_frame)) Driver.default
                0%nat 1%nat 1%nat 1%nat 1%nat 7 0x61 0xA8 0x7C 0xB4
                Hbytes eq_refl eq_refl eq_refl eq_refl) as Hassign.
  cbv zeta in Hassign.
  destruct Hassign as (_ & Hr & Ht & Hh).
  split; [exact Hr|split; [exact Ht|exact Hh]].
Defined.

(** On the transport double the handle count is back to zero after a run
    that ends in a checksum failure. *)
Lemma handle_released_on_every_path_witness :
  exists pre post,
    calls_of (run (Driver._measure_raw
                     (Stub.env (Stub.answering Stub.spec_example_frame))
                     Driver.default) 0%nat)
    = pre ++ EvRelease 7 :: post
    /\ Driver.count Driver.is_codec pre = 0%nat
    /\ Driver.count Driver.is_read post = 0%nat.
Proof.
  destruct (handle_released_on_every_path
              (Stub.env (Stub.answering Stub.spec_example_frame))
              Driver.default 0%nat 1%nat 7 eq_refl)
    as ((pre & post & w' & Hcalls & _ & _ & Hcodec & _ & _ & Hread & _) & _).
  exists pre, post. split; [exact Hcalls|split; [exact Hcodec|exact Hread]].
Defined.

Lemma checksum_failure_releases_handle :
  let r := run (Driver.read (Stub.env (Stub.answering Stub.spec_example_frame))
                            Driver.default) 0%nat in
  world_of r = 0%nat
  /\ outcome_of r = Raise (ProtocolError ChecksumMismatch).
Proof. cbv zeta. split; reflexivity. Qed.

(* ------------------------------------------------------------------ *)
(** ** The real driver: every run of the cycle *)

Section CycleRuns.
Context {W H : Type}.
Variable env : Env W H.
Variable self : Driver.SHT30.

Lemma bytes_inv (data frame : list Z) :
  Driver.bytes data = Ok frame -> frame = data /\ Forall is_byte data.
Proof.
  unfold Driver.bytes. destruct (forallb is_byteb data) eqn:Hall; [|discriminate].
  intros Hok. injection Hok as <-. split; [reflexivity|].
  apply Forall_forall. intros b Hb.
  rewrite forallb_forall in Hall. specialize (Hall b Hb).
  unfold is_byteb in Hall. apply andb_true_iff in Hall.
  destruct Hall as [H0 H1]. apply Z.leb_le in H0. apply Z.ltb_lt in H1.
  split; assumption.
Qed.

Lemma bytes_raises_value_error (data : list Z) (e : exn) :
  Driver.bytes data = Raise e ->
  e = OtherException "ValueError" "bytes must be in range(0, 256)"
  /\ Exists (fun b => ~ is_byte b) data.
Proof.
  unfold Driver.bytes. destruct (forallb is_byteb data) eqn:Hall; [discriminate|].
  intros Hr. injection Hr as <-. split; [reflexivity|].
  apply Exists_exists.
  assert (Hex : existsb (fun b => negb (is_byteb b)) data = true).
  { clear -Hall. induction data as [|b l IH]; [discriminate|].
    cbn in *. destruct (is_byteb b); cbn in *; [auto|reflexivity]. }
  apply existsb_exists in Hex. destruct Hex as (b & Hin & Hb).
  exists b. split; [exact Hin|]. intros [H0 H1].
  unfold is_byteb in Hb. apply negb_true_iff, andb_false_iff in Hb.
  destruct Hb as [Hb|Hb]; [apply Z.leb_gt in Hb|apply Z.ltb_ge in Hb]; lia.
Qed.

(** Every run of [_measure_raw] is one of the runs of [cycle_run]. *)
Lemma measure_raw_cycle_run (w : W) :
  Driver.cycle_run env self w (run (Driver._measure_raw env self) w).
Proof.
  destruct (bus_factory env (Driver.bus_number self) w)
    as [w1 [bus|e1]] eqn:Hacquire.
  2:{ rewrite (measure_raw_acquire_raises env self w w1 e1 Hacquire).
      apply Driver.run_acquire_raises. exact Hacquire. }
  destruct (write_i2c_block_data env bus (Driver.address self) 0x24 [0x00] w1)
    as [w2 [[]|e2]] eqn:Hwrite.
  2:{ rewrite (measure_raw_write_raises env self w w1 w2 bus e2
                 Hacquire Hwrite).
      eapply Driver.run_write_raises; eassumption. }
  destruct (time_sleep env (Driver.measurement_delay_seconds self) w2)
    as [w3 [[]|e3]] eqn:Hsleep.
  2:{ rewrite (measure_raw_sleep_raises env self w w1 w2 w3 bus e3
                 Hacquire Hwrite Hsleep).
      eapply Driver.run_sleep_raises; eassumption. }
  destruct (read_i2c_block_data env bus (Driver.address self) 0x00 6 w3)
    as [w4 [data|e4]] eqn:Hread.
  2:{ rewrite (measure_raw_read_raises env self w w1 w2 w3 w4 bus e4
                 Hacquire Hwrite Hsleep Hread).
      eapply Driver.run_read_raises; eassumption. }
  rewrite (measure_raw_calls_return env self w w1 w2 w3 w4 bus data
             Hacquire Hwrite Hsleep Hread).
  destruct (Driver.bytes data) as [frame|e5] eqn:Hbytes.
  - eapply Driver.run_codec; eassumption.
  - destruct (bytes_raises_value_error data e5 Hbytes) as [He5 _].
    replace (Raise e5 : result (Z * Z)) with
      (Raise (Driver.surfaced e5) : result (Z * Z))
      by (rewrite He5; reflexivity).
    eapply Driver.run_bytes_raises; eassumption.
Qed.


(** The three accessors make the calls of [_measure_raw] and fail as it
    does. *)
Lemma accessor_calls (w : W) (calls : list (event H)) :
  In calls (accessor_logs env self w) ->
  calls = calls_of (run (Driver._measure_raw env self) w).
Proof.
  destruct (accessors_follow_measure_raw env self w) as (Hr & Ht & Hh).
  cbv zeta in Hr, Ht, Hh. unfold calls_of.
  intros [<-|[<-|[<-|[]]]]; [rewrite Hr|rewrite Ht|rewrite Hh]; reflexivity.
Qed.

Lemma failure_of_map_result {A B} (f : A -> B) (r : result A) :
  failure_of (map_result f r) = failure_of r.
Proof. destruct r; reflexivity. Qed.

Lemma accessor_failure (w : W) (failure : option exn) :
  In failure (accessor_failures env self w) ->
  failure = failure_of (outcome_of (run (Driver._measure_raw env self) w)).
Proof.
  destruct (accessors_follow_measure_raw env self w) as (Hr & Ht & Hh).
  cbv zeta in Hr, Ht, Hh. unfold outcome_of.
  intros [<-|[<-|[<-|[]]]]; [rewrite Hr|rewrite Ht|rewrite Hh];
    apply failure_of_map_result.
Qed.

Ltac cycle_cases w :=
  let r := fresh "r" in
  let Hr := fresh "Hr" in
  pose proof (measure_raw_cycle_run w) as Hr;
  remember (run (Driver._measure_raw env self) w) as r;
  destruct Hr; unfold Driver.cycle_calls, Driver.count;
  cbn [calls_of outcome_of world_of fst snd app filter List.length
       Driver.is_acquire Driver.is_write Driver.is_sleep Driver.is_read
       Driver.is_release Driver.is_codec].

(** X1. Whatever the collaborators do, a run of an accessor acquires the
    bus exactly once and repeats nothing: the handle is released at most
    once and exactly when a trigger write was made; there is at most one
    wait, and only after a write; at most one block read, and only after a
    wait; at most one call of the codec, and only after a block read. *)
Theorem accessor_calls_never_repeat (w : W) (calls : list (event H))
  (Hcalls : In calls (accessor_logs env self w)) :
  (Driver.count Driver.is_acquire calls = 1
   /\ Driver.count Driver.is_release calls <= 1
   /\ Driver.count Driver.is_write calls = Driver.count Driver.is_release calls
   /\ Driver.count Driver.is_sleep calls <= Driver.count Driver.is_write calls
   /\ Driver.count Driver.is_read calls <= Driver.count Driver.is_sleep calls
   /\ Driver.count Driver.is_codec calls <= Driver.count Driver.is_read calls)%nat.
Proof.
  rewrite (accessor_calls w calls Hcalls).
  cycle_cases w; lia.
Qed.


(** X2. A block read is never made before the wait has returned: whenever
    the log of an accessor holds a block read, the log starts with the
    acquisition, the trigger write, the wait and that read, on the handle
    that was acquired, for 6 bytes at register 0x00 of the configured
    address; and the acquisition, the write and the wait had all returned
    normally. *)
Theorem block_read_follows_wait
  (w : W) (calls : list (event H)) (bus : H) (a r l : Z)
  (Hcalls : In calls (accessor_logs env self w))
  (Hread : In (EvRead bus a r l) calls) :
  (exists post,
     calls = [EvAcquire (Driver.bus_number self);
              EvWrite bus (Driver.address self) 0x24 [0x00];
              EvSleep (Driver.measurement_delay_seconds self);
              EvRead bus (Driver.address self) 0x00 6] ++ post)
  /\ (a = Driver.address self /\ r = 0x00 /\ l = 6)
  /\ (exists w1 w2 w3,
        bus_factory env (Driver.bus_number self) w = (w1, Ok bus)
        /\ write_i2c_block_data env bus (Driver.address self) 0x24 [0x00] w1
           = (w2, Ok tt)
        /\ time_sleep env (Driver.measurement_delay_seconds self) w2
           = (w3, Ok tt)).
Proof.
  rewrite (accessor_calls w calls Hcalls) in *. clear Hcalls.
  cycle_cases w; unfold Driver.cycle_calls in Hread;
    cbn [calls_of fst snd In app] in Hread;
    repeat match goal with
           | Hor : _ \/ _ |- _ => destruct Hor as [Hor|Hor]
           | Hf : False |- _ => destruct Hf
           | Heq : _ = EvRead _ _ _ _ |- _ =>
               first [discriminate Heq | injection Heq as <- <- <- <-]
           end.
  all: (split; [eexists; reflexivity|]);
    (split; [repeat split; reflexivity|]);
    eauto 10.
Qed.

(** A raw pair comes out of [_measure_raw] only after a complete cycle and
    from a frame of bytes that the codec accepted. *)
Lemma measure_raw_value_needs_frame (w : W) (raw : Z * Z) :
  outcome_of (run (Driver._measure_raw env self) w) = Ok raw ->
  exists bus frame,
    calls_of (run (Driver._measure_raw env self) w)
    = Driver.cycle_calls self bus ++ [EvCodec frame]
    /\ Forall is_byte frame
    /\ Codec.parse_measurement_frame frame = Ok raw.
Proof.
  pose proof (measure_raw_cycle_run w) as Hrun.
  remember (run (Driver._measure_raw env self) w) as res.
  destruct Hrun; cbn [outcome_of calls_of fst snd]; try discriminate.
  intros Hparse. exists bus, frame.
  match goal with
  | Hb : Driver.bytes _ = Ok _ |- _ => destruct (bytes_inv _ _ Hb) as [-> Hall]
  end.
  repeat split; assumption.
Qed.

Lemma map_result_ok_inv {A B} (f : A -> B) (r : result A) (v : B) :
  map_result f r = Ok v -> exists a, r = Ok a /\ v = f a.
Proof.
  destruct r as [a|e]; [|discriminate].
  intros Heq. injection Heq as <-. exists a. split; reflexivity.
Qed.

Lemma read_temperature_ok_inv (w : W) (t : float) :
  outcome_of (run (Driver.read_temperature env self) w) = Ok t ->
  exists raw,
    outcome_of (run (Driver._measure_raw env self) w) = Ok raw
    /\ t = Conversion.raw_to_celsius (fst raw)
    /\ calls_of (run (Driver.read_temperature env self) w)
       = calls_of (run (Driver._measure_raw env self) w).
Proof.
  destruct (accessors_follow_measure_raw env self w) as (_ & Ht & _).
  cbv zeta in Ht. unfold outcome_of, calls_of. rewrite Ht. cbn [fst snd].
  intros Hok. destruct (map_result_ok_inv _ _ _ Hok) as (raw & Hraw & ->).
  exists raw. repeat split. exact Hraw.
Qed.

Lemma read_humidity_ok_inv (w : W) (h : float) :
  outcome_of (run (Driver.read_humidity env self) w) = Ok h ->
  exists raw,
    outcome_of (run (Driver._measure_raw env self) w) = Ok raw
    /\ h = Conversion.raw_to_humidity (snd raw)
    /\ calls_of (run (Driver.read_humidity env self) w)
       = calls_of (run (Driver._measure_raw env self) w).
Proof.
  destruct (accessors_follow_measure_raw env self w) as (_ & _ & Hh).
  cbv zeta in Hh. unfold outcome_of, calls_of. rewrite Hh. cbn [fst snd].
  intros Hok. destruct (map_result_ok_inv _ _ _ Hok) as (raw & Hraw & ->).
  exists raw. repeat split. exact Hraw.
Qed.

Lemma read_ok_inv (w : W) (v : float * float) :
  outcome_of (run (Driver.read env self) w) = Ok v ->
  exists raw,
    outcome_of (run (Driver._measure_raw env self) w) = Ok raw
    /\ v = (Conversion.raw_to_celsius (fst raw),
            Conversion.raw_to_humidity (snd raw))
    /\ calls_of (run (Driver.read env self) w)
       = calls_of (run (Driver._measure_raw env self) w).
Proof.
  destruct (accessors_follow_measure_raw env self w) as (Hr & _ & _).
  cbv zeta in Hr. unfold outcome_of, calls_of. rewrite Hr. cbn [fst snd].
  intros Hok. destruct (map_result_ok_inv _ _ _ Hok) as (raw & Hraw & ->).
  exists raw. repeat split. exact Hraw.
Qed.

(** X3. An accessor returns a value only after a complete cycle: the log
    is acquire, write, wait, read, release and one call of the codec on a
    frame of bytes that the codec accepted, and the value is the conversion
    of that frame's channels.  There are no partial results. *)
Theorem value_needs_accepted_frame (w : W) :
  (forall v, outcome_of (run (Driver.read env self) w) = Ok v ->
     exists bus frame a b,
       calls_of (run (Driver.read env self) w)
       = Driver.cycle_calls self bus ++ [EvCodec frame]
       /\ Forall is_byte frame
       /\ Codec.parse_measurement_frame frame = Ok (a, b)
       /\ v = (Conversion.raw_to_celsius a, Conversion.raw_to_humidity b))
  /\ (forall t, outcome_of (run (Driver.read_temperature env self) w) = Ok t ->
     exists bus frame a b,
       calls_of (run (Driver.read_temperature env self) w)
       = Driver.cycle_calls self bus ++ [EvCodec frame]
       /\ Forall is_byte frame
       /\ Codec.parse_measurement_frame frame = Ok (a, b)
       /\ t = Conversion.raw_to_celsius a)
  /\ (forall h, outcome_of (run (Driver.read_humidity env self) w) = Ok h ->
     exists bus frame a b,
       calls_of (run (Driver.read_humidity env self) w)
       = Driver.cycle_calls self bus ++ [EvCodec frame]
       /\ Forall is_byte frame
       /\ Codec.parse_measurement_frame frame = Ok (a, b)
       /\ h = Conversion.raw_to_humidity b).
Proof.
  split; [|split].
  - intros v Hok.
    destruct (read_ok_inv w v Hok) as ([a b] & Hraw & -> & ->).
    destruct (measure_raw_value_needs_frame w (a, b) Hraw)
      as (bus & frame & Hcalls & Hall & Hparse).
    exists bus, frame, a, b. repeat split; assumption.
  - intros t Hok.
    destruct (read_temperature_ok_inv w t Hok) as ([a b] & Hraw & -> & ->).
    destruct (measure_raw_value_needs_frame w (a, b) Hraw)
      as (bus & frame & Hcalls & Hall & Hparse).
    exists bus, frame, a, b. repeat split; assumption.
  - intros h Hok.
    destruct (read_humidity_ok_inv w h Hok) as ([a b] & Hraw & -> & ->).
    destruct (measure_raw_value_needs_frame w (a, b) Hraw)
      as (bus & frame & Hcalls & Hall & Hparse).
    exists bus, frame, a, b. repeat split; assumption.
Qed.

(** X9. Run from the same world, the three accessors make the same calls
    and leave the same world; [read] returns a pair exactly when
    [read_temperature] returns its first component and [read_humidity] its
    second, and the three fail with the same exception. *)
Theorem accessors_agree (w : W) :
  (calls_of (run (Driver.read_temperature env self) w)
   = calls_of (run (Driver.read env self) w)
   /\ calls_of (run (Driver.read_humidity env self) w)
      = calls_of (run (Driver.read env self) w))
  /\ (world_of (run (Driver.read_temperature env self) w)
      = world_of (run (Driver.read env self) w)
      /\ world_of (run (Driver.read_humidity env self) w)
         = world_of (run (Driver.read env self) w))
  /\ (forall t h,
        outcome_of (run (Driver.read env self) w) = Ok (t, h)
        <-> outcome_of (run (Driver.read_temperature env self) w) = Ok t
            /\ outcome_of (run (Driver.read_humidity env self) w) = Ok h)
  /\ (forall e,
        (outcome_of (run (Driver.read env self) w) = Raise e
         <-> outcome_of (run (Driver.read_temperature env self) w) = Raise e)
        /\ (outcome_of (run (Driver.read env self) w) = Raise e
            <-> outcome_of (run (Driver.read_humidity env self) w) = Raise e)).
Proof.
  destruct (accessors_follow_measure_raw env self w) as (Hr & Ht & Hh).
  cbv zeta in Hr, Ht, Hh. unfold calls_of, world_of, outcome_of.
  rewrite Hr, Ht, Hh. cbn [fst snd].
  split; [split; reflexivity|]. split; [split; reflexivity|].
  destruct (snd (run (Driver._measure_raw env self) w)) as [[a b]|e0];
    cbn [map_result fst snd]; split.
  - intros t h. split.
    + intros Heq. injection Heq as <- <-. split; reflexivity.
    + intros [Ht' Hh']. injection Ht' as <-. injection Hh' as <-. reflexivity.
  - intros e. split; split; discriminate.
  - intros t h. split; [discriminate|intros [Ht' _]; discriminate Ht'].
  - intros e. split; split; intros Heq; injection Heq as <-; reflexivity.
Qed.


Ltac accessor_goal w :=
  split;
  [ intros calls Hcalls; rewrite (accessor_calls w calls Hcalls)
  | intros failure Hfailure; rewrite (accessor_failure w failure Hfailure) ].

(** X4. When the bus cannot be acquired, the acquisition is the only call
    an accessor makes: nothing is written, read or released.  The failure
    is the exception of the factory, an [OSError] being replaced by an
    [SHT30Error] that carries it as its cause. *)
Theorem acquisition_failure_ends_cycle
  (w w1 : W) (e : exn)
  (Hacquire : bus_factory env (Driver.bus_number self) w = (w1, Raise e)) :
  (forall calls, In calls (accessor_logs env self w) ->
     calls = [EvAcquire (Driver.bus_number self)])
  /\ (forall failure, In failure (accessor_failures env self w) ->
        failure = Some (Driver.surfaced e)).
Proof.
  accessor_goal w;
    rewrite (measure_raw_acquire_raises env self w w1 e Hacquire);
    reflexivity.
Qed.

(** X5. When the wait raises, the trigger write has been made, the handle
    is released and no block read follows.  An exception that is not an
    [OSError] (the [ValueError] of [time.sleep] for a negative delay)
    reaches the caller as it is, not as an [SHT30Error]. *)
Theorem wait_failure_ends_cycle
  (w w1 w2 w3 : W) (bus : H) (e : exn)
  (Hacquire : bus_factory env (Driver.bus_number self) w = (w1, Ok bus))
  (Hwrite : write_i2c_block_data env bus (Driver.address self) 0x24 [0x00] w1
            = (w2, Ok tt))
  (Hsleep : time_sleep env (Driver.measurement_delay_seconds self) w2
            = (w3, Raise e)) :
  (forall calls, In calls (accessor_logs env self w) ->
     calls = [EvAcquire (Driver.bus_number self);
              EvWrite bus (Driver.address self) 0x24 [0x00];
              EvSleep (Driver.measurement_delay_seconds self);
              EvRelease bus])
  /\ (forall failure, In failure (accessor_failures env self w) ->
        failure = Some (Driver.surfaced e)).
Proof.
  accessor_goal w;
    rewrite (measure_raw_sleep_raises env self w w1 w2 w3 bus e
               Hacquire Hwrite Hsleep);
    reflexivity.
Qed.

(** X6. When the block read raises, the handle is released and the codec
    is not called; an [OSError] reaches the caller as an [SHT30Error] that
    carries it as its cause. *)
Theorem block_read_failure_ends_cycle
  (w w1 w2 w3 w4 : W) (bus : H) (e : exn)
  (Hacquire : bus_factory env (Driver.bus_number self) w = (w1, Ok bus))
  (Hwrite : write_i2c_block_data env bus (Driver.address self) 0x24 [0x00] w1
            = (w2, Ok tt))
  (Hsleep : time_sleep env (Driver.measurement_delay_seconds self) w2
            = (w3, Ok tt))
  (Hread : read_i2c_block_data env bus (Driver.address self) 0x00 6 w3
           = (w4, Raise e)) :
  (forall calls, In calls (accessor_logs env self w) ->
     calls = [EvAcquire (Driver.bus_number self);
              EvWrite bus (Driver.address self) 0x24 [0x00];
              EvSleep (Driver.measurement_delay_seconds self);
              EvRead bus (Driver.address self) 0x00 6;
              EvRelease bus])
  /\ (forall failure, In failure (accessor_failures env self w) ->
        failure = Some (Driver.surfaced e)).
Proof.
  accessor_goal w;
    rewrite (measure_raw_read_raises env self w w1 w2 w3 w4 bus e
               Hacquire Hwrite Hsleep Hread);
    reflexivity.
Qed.

Lemma bytes_not_all_bytes (data : list Z) :
  Exists (fun b => ~ is_byte b) data ->
  Driver.bytes data
  = Raise (OtherException "ValueError" "bytes must be in range(0, 256)").
Proof.
  intros Hex. unfold Driver.bytes.
  destruct (forallb is_byteb data) eqn:Hall; [|reflexivity].
  exfalso. apply Exists_exists in Hex. destruct Hex as (b & Hin & Hb).
  rewrite forallb_forall in Hall. specialize (Hall b Hin).
  apply Hb. unfold is_byteb in Hall. apply andb_true_iff in Hall.
  destruct Hall as [H0 H1]. apply Z.leb_le in H0. apply Z.ltb_lt in H1.
  split; assumption.
Qed.

(** X7. When the transport returns data with an element outside
    [range(0, 256)], [bytes(...)] raises inside the block: the handle is
    released, the codec is not called, and the accessor fails with that
    [ValueError], which is neither an [SHT30Error] nor a protocol error. *)
Theorem non_byte_data_raise_value_error
  (w w1 w2 w3 w4 : W) (bus : H) (data : list Z)
  (Hacquire : bus_factory env (Driver.bus_number self) w = (w1, Ok bus))
  (Hwrite : write_i2c_block_data env bus (Driver.address self) 0x24 [0x00] w1
            = (w2, Ok tt))
  (Hsleep : time_sleep env (Driver.measurement_delay_seconds self) w2
            = (w3, Ok tt))
  (Hread : read_i2c_block_data env bus (Driver.address self) 0x00 6 w3
           = (w4, Ok data))
  (Hdata : Exists (fun b => ~ is_byte b) data) :
  (forall calls, In calls (accessor_logs env self w) ->
     calls = [EvAcquire (Driver.bus_number self);
              EvWrite bus (Driver.address self) 0x24 [0x00];
              EvSleep (Driver.measurement_delay_seconds self);
              EvRead bus (Driver.address self) 0x00 6;
              EvRelease bus])
  /\ (forall failure, In failure (accessor_failures env self w) ->
        failure
        = Some (OtherException "ValueError" "bytes must be in range(0, 256)")).
Proof.
  accessor_goal w;
    rewrite (measure_raw_calls_return env self w w1 w2 w3 w4 bus data
               Hacquire Hwrite Hsleep Hread);
    rewrite (bytes_not_all_bytes data Hdata); reflexivity.
Qed.

Lemma surfaced_not_OSError (e : exn) (msg : string) :
  Driver.surfaced e <> OSError msg.
Proof. destruct e; discriminate. Qed.

(** X8. A run that does not reach the codec has failed, and not with a
    bare [OSError]: every [OSError] raised inside the block has been
    replaced by an [SHT30Error]. *)
Theorem no_bare_OSError_before_codec
  (w : W) (failure : option exn)
  (Hfailure : In failure (accessor_failures env self w))
  (Hcodec : Driver.count Driver.is_codec
              (calls_of (run (Driver._measure_raw env self) w)) = 0%nat) :
  exists e, failure = Some e /\ forall msg, e <> OSError msg.
Proof.
  rewrite (accessor_failure w failure Hfailure). clear Hfailure.
  pose proof (measure_raw_cycle_run w) as Hrun.
  remember (run (Driver._measure_raw env self) w) as res.
  destruct Hrun; cbn [outcome_of calls_of fst snd failure_of] in *;
    try (eexists; split; [reflexivity|apply surfaced_not_OSError]).
  exfalso. unfold Driver.count, Driver.cycle_calls in Hcodec.
  cbn in Hcodec. discriminate Hcodec.
Qed.


End CycleRuns.

(* ------------------------------------------------------------------ *)
(** ** The real driver: successive calls *)

Section Framing.
Context {W H : Type}.

Lemma framed_ret {A} (a : A) : framed (@ret W H A a).
Proof. intros w log. unfold ret, run. cbn. rewrite app_nil_r. reflexivity. Qed.

Lemma framed_raise {A} (e : exn) : framed (@raise W H A e).
Proof. intros w log. unfold raise, run. cbn. rewrite app_nil_r. reflexivity. Qed.

Lemma framed_lift {A} (r : result A) : framed (@lift W H A r).
Proof. intros w log. unfold lift, run. cbn. rewrite app_nil_r. reflexivity. Qed.

Lemma framed_call {A} (ev : event H) (op : W -> W * result A) :
  framed (call ev op).
Proof.
  intros w log. unfold call, run. cbn [fst snd].
  destruct (op w) as [w' r]. reflexivity.
Qed.

Lemma framed_bind {A B} (m : IO W H A) (k : A -> IO W H B) :
  framed m -> (forall a, framed (k a)) -> framed (bind m k).
Proof.
  intros Hm Hk w log. unfold bind, run. rewrite (Hm w log).
  unfold run, world_of, calls_of, outcome_of.
  destruct (m (w, [])) as [[w1 c1] [a|e]]; cbn [fst snd].
  - rewrite (Hk a w1 (log ++ c1)), (Hk a w1 c1).
    unfold run, world_of, calls_of, outcome_of.
    destruct (k a (w1, [])) as [[w2 c2] r]. cbn [fst snd].
    rewrite app_assoc. reflexivity.
  - reflexivity.
Qed.

Lemma framed_finally {A} (m : IO W H A) (cleanup : IO W H unit) :
  framed m -> framed cleanup -> framed (finally m cleanup).
Proof.
  intros Hm Hc w log. unfold finally, run. rewrite (Hm w log).
  unfold run, world_of, calls_of, outcome_of.
  destruct (m (w, [])) as [[w1 c1] r]. cbn [fst snd].
  rewrite (Hc w1 (log ++ c1)), (Hc w1 c1).
  unfold run, world_of, calls_of, outcome_of.
  destruct (cleanup (w1, [])) as [[w2 c2] r2]. cbn [fst snd].
  rewrite app_assoc. reflexivity.
Qed.

Lemma framed_try_except_OSError {A}
  (m : IO W H A) (handler : string -> IO W H A) :
  framed m -> (forall msg, framed (handler msg)) ->
  framed (try_except_OSError m handler).
Proof.
  intros Hm Hh w log. unfold try_except_OSError, run. rewrite (Hm w log).
  unfold run, world_of, calls_of, outcome_of.
  destruct (m (w, [])) as [[w1 c1] [a|e]]; cbn [fst snd];
    [reflexivity|].
  destruct e; try reflexivity.
  rewrite (Hh msg w1 (log ++ c1)), (Hh msg w1 c1).
  unfold run, world_of, calls_of, outcome_of.
  destruct (handler msg (w1, [])) as [[w2 c2] r]. cbn [fst snd].
  rewrite app_assoc. reflexivity.
Qed.

Variable env : Env W H.
Variable self : Driver.SHT30.

Ltac framing :=
  repeat first
    [ apply framed_ret | apply framed_raise | apply framed_lift
    | apply framed_call
    | apply framed_bind; [|intros ?]
    | apply framed_finally
    | apply framed_try_except_OSError; [|intros ?] ].

Lemma framed_measure_raw : framed (Driver._measure_raw env self).
Proof.
  unfold Driver._measure_raw, Driver.with_bus, Driver.call_codec. framing.
Qed.

Lemma framed_read_temperature : framed (Driver.read_temperature env self).
Proof.
  unfold Driver.read_temperature. apply framed_bind;
    [apply framed_measure_raw|intros [a b]; apply framed_ret].
Qed.

Lemma framed_read_humidity : framed (Driver.read_humidity env self).
Proof.
  unfold Driver.read_humidity. apply framed_bind;
    [apply framed_measure_raw|intros [a b]; apply framed_ret].
Qed.

Lemma count_app (p : event H -> bool) (l l' : list (event H)) :
  Driver.count p (l ++ l') = (Driver.count p l + Driver.count p l')%nat.
Proof. unfold Driver.count. rewrite filter_app, length_app. reflexivity. Qed.

(** X10. Nothing is cached between calls: when [read_temperature()]
    followed by [read_humidity()] both return, the calls are those of the
    first accessor followed by those of the second run in the world the
    first left, which makes two acquisitions, two trigger writes, two
    waits, two block reads, two releases and two calls of the codec. *)
Theorem successive_accessors_repeat_cycle
  (w : W) (t h : float)
  (Hok : outcome_of (run (Driver.read_temperature_then_humidity env self) w)
         = Ok (t, h)) :
  let first := run (Driver.read_temperature env self) w in
  let second := run (Driver.read_humidity env self) (world_of first) in
  let calls :=
    calls_of (run (Driver.read_temperature_then_humidity env self) w) in
  outcome_of first = Ok t /\ outcome_of second = Ok h
  /\ calls = calls_of first ++ calls_of second
  /\ (Driver.count Driver.is_acquire calls = 2
      /\ Driver.count Driver.is_write calls = 2
      /\ Driver.count Driver.is_sleep calls = 2
      /\ Driver.count Driver.is_read calls = 2
      /\ Driver.count Driver.is_release calls = 2
      /\ Driver.count Driver.is_codec calls = 2)%nat.
Proof.
  intros first second calls.
  assert (Hseq :
    run (Driver.read_temperature_then_humidity env self) w
    = match outcome_of first with
      | Ok t' =>
          ((world_of second, calls_of first ++ calls_of second),
           map_result (fun h' => (t', h')) (outcome_of second))
      | Raise e => (fst first, Raise e)
      end).
  { subst first second.
    unfold Driver.read_temperature_then_humidity, run at 1, bind.
    fold (run (Driver.read_temperature env self) w).
    destruct (run (Driver.read_temperature env self) w)
      as [[w1 c1] [t'|e]] eqn:Hfirst; cbn [outcome_of world_of calls_of fst snd];
      [|reflexivity].
    rewrite (framed_read_humidity w1 c1).
    destruct (outcome_of (run (Driver.read_humidity env self) w1));
      reflexivity. }
  subst calls. rewrite Hseq in *. clear Hseq.
  destruct (outcome_of first) as [t'|e] eqn:Hfirst;
    [|cbn in Hok; discriminate Hok].
  destruct (outcome_of second) as [h'|e] eqn:Hsecond;
    cbn [outcome_of snd map_result] in Hok; [|discriminate Hok].
  injection Hok as -> ->.
  split; [reflexivity|]. split; [reflexivity|].
  cbn [calls_of fst snd]. split; [reflexivity|].
  destruct (read_temperature_ok_inv env self w t Hfirst)
    as (raw1 & Hraw1 & _ & Hsame1).
  destruct (measure_raw_value_needs_frame env self w raw1 Hraw1)
    as (bus1 & f1 & Hc1 & _).
  destruct (read_humidity_ok_inv env self (world_of first) h Hsecond)
    as (raw2 & Hraw2 & _ & Hsame2).
  destruct (measure_raw_value_needs_frame env self (world_of first) raw2 Hraw2)
    as (bus2 & f2 & Hc2 & _).
  fold first in Hsame1. fold second in Hsame2.
  rewrite !count_app, Hsame1, Hsame2, Hc1, Hc2.
  repeat split; reflexivity.
Qed.

End Framing.

(* ------------------------------------------------------------------ *)
(** ** The simulated driver: the clamp, case by case *)

Section FakeEdges.
Context {G : Type}.
Variable gauss : float -> float -> G -> float * G.
Variable self : Fake.SHT30Fake.

(** X11. A draw strictly inside the range is returned as it is: when the
    temperature draw is strictly between -40 and 125 and the humidity draw
    strictly between 0 and 100, [read] returns exactly the two draws, and so
    do [read_temperature] and [read_humidity]. *)
Theorem fake_in_range_draws_unchanged (g : G) :
  let draw_t := gauss (Fake.temperature self) (Fake.temperature_sigma self) g in
  let draw_h :=
    gauss (Fake.humidity self) (Fake.humidity_sigma self) (snd draw_t) in
  PrimFloat.ltb (-40)%float (fst draw_t) = true ->
  PrimFloat.ltb (fst draw_t) 125%float = true ->
  PrimFloat.ltb 0%float (fst draw_h) = true ->
  PrimFloat.ltb (fst draw_h) 100%float = true ->
  Fake.read gauss self g = ((fst draw_t, fst draw_h), snd draw_h)
  /\ Fake.read_temperature gauss self g = draw_t
  /\ Fake.read_humidity gauss self (snd draw_t) = draw_h.
Proof.
  intros draw_t draw_h. subst draw_h draw_t.
  unfold Fake.read, Fake.read_temperature, Fake.read_humidity,
    Fake._rand_temperature, Fake._rand_humidity.
  destruct (gauss (Fake.temperature self) (Fake.temperature_sigma self) g)
    as [t g1]. cbn [fst snd].
  destruct (gauss (Fake.humidity self) (Fake.humidity_sigma self) g1)
    as [h g2]. cbn [fst snd].
  intros Ht0 Ht1 Hh0 Hh1.
  destruct (clamp_cases (-40)%float 125%float t eq_refl) as (_ & Htin & _).
  destruct (clamp_cases 0%float 100%float h eq_refl) as (_ & Hhin & _).
  rewrite (Htin Ht0 Ht1), (Hhin Hh0 Hh1). repeat split; reflexivity.
Qed.

(** X12. A draw outside the range saturates: a temperature draw below -40
    gives exactly -40.0, one above 125 gives exactly 125.0; a humidity draw
    below 0 gives exactly 0.0, one above 100 gives exactly 100.0.  A NaN
    draw gives the upper bound, 125.0 or 100.0. *)
Theorem fake_out_of_range_draws_saturate (g : G) :
  let t := fst (gauss (Fake.temperature self) (Fake.temperature_sigma self) g) in
  let h := fst (gauss (Fake.humidity self) (Fake.humidity_sigma self) g) in
  (PrimFloat.ltb t (-40)%float = true ->
   fst (Fake.read_temperature gauss self g) = (-40)%float)
  /\ (PrimFloat.ltb 125%float t = true \/ PrimFloat.is_nan t = true ->
      fst (Fake.read_temperature gauss self g) = 125%float)
  /\ (PrimFloat.ltb h 0%float = true ->
      fst (Fake.read_humidity gauss self g) = 0%float)
  /\ (PrimFloat.ltb 100%float h = true \/ PrimFloat.is_nan h = true ->
      fst (Fake.read_humidity gauss self g) = 100%float).
Proof.
  intros t h. subst t h.
  unfold Fake.read_temperature, Fake.read_humidity,
    Fake._rand_temperature, Fake._rand_humidity.
  destruct (gauss (Fake.temperature self) (Fake.temperature_sigma self) g)
    as [t g1].
  destruct (gauss (Fake.humidity self) (Fake.humidity_sigma self) g)
    as [h g2]. cbn [fst snd].
  destruct (clamp_cases (-40)%float 125%float t eq_refl)
    as (Htlo & _ & Hthi & Htnan).
  destruct (clamp_cases 0%float 100%float h eq_refl)
    as (Hhlo & _ & Hhhi & Hhnan).
  repeat split.
  - exact Htlo.
  - intros [Hgt|Hnan]; [exact (Hthi Hgt)|exact (Htnan Hnan)].
  - exact Hhlo.
  - intros [Hgt|Hnan]; [exact (Hhhi Hgt)|exact (Hhnan Hnan)].
Qed.

End FakeEdges.

(* ------------------------------------------------------------------ *)
(** ** The further properties on the doubles *)

Lemma accessor_calls_never_repeat_witness :
  let calls :=
    calls_of (run (Driver.read (Stub.env (Stub.answering Stub.good_frame))
                               Driver.default) 0%nat) in
  (Driver.count Driver.is_acquire calls = 1
   /\ Driver.count Driver.is_release calls <= 1
   /\ Driver.count Driver.is_write calls = Driver.count Driver.is_release calls
   /\ Driver.count Driver.is_sleep calls <= Driver.count Driver.is_write calls
   /\ Driver.count Driver.is_read calls <= Driver.count Driver.is_sleep calls
   /\ Driver.count Driver.is_codec calls <= Driver.count Driver.is_read calls)%nat.
Proof.
  apply (accessor_calls_never_repeat
           (Stub.env (Stub.answering Stub.good_frame)) Driver.default 0%nat).
  left. reflexivity.
Defined.

Lemma block_read_follows_wait_witness :
  exists post,
    calls_of (run (Driver.read (Stub.env (Stub.answering Stub.good_frame))
                               Driver.default) 0%nat)
    = [EvAcquire 1; EvWrite 7 0x44 0x24 [0x00];
       EvSleep 0x1.47ae147ae147bp-6%float; EvRead 7 0x44 0x00 6] ++ post.
Proof.
  assert (Hin : In (EvRead 7 0x44 0x00 6)
                   (calls_of (run (Driver.read
                                     (Stub.env (Stub.answering Stub.good_frame))
                                     Driver.default) 0%nat)))
    by (cbn; tauto).
  destruct (block_read_follows_wait
              (Stub.env (Stub.answering Stub.good_frame)) Driver.default
              0%nat _ 7 0x44 0x00 6 (or_introl eq_refl) Hin)
    as (Hpost & _).
  exact Hpost.
Defined.

Lemma value_needs_accepted_frame_witness :
  exists bus frame a b,
    calls_of (run (Driver.read (Stub.env (Stub.answering Stub.good_frame))
                               Driver.default) 0%nat)
    = Driver.cycle_calls Driver.default bus ++ [EvCodec frame]
    /\ Forall is_byte frame
    /\ Codec.parse_measurement_frame frame = Ok (a, b)
    /\ (Conversion.raw_to_celsius 0x61A8, Conversion.raw_to_humidity 0x7CB4)
       = (Conversion.raw_to_celsius a, Conversion.raw_to_humidity b).
Proof.
  apply (proj1 (value_needs_accepted_frame
                  (Stub.env (Stub.answering Stub.good_frame)) Driver.default
                  0%nat)).
  reflexivity.
Defined.

Lemma acquisition_failure_ends_cycle_witness :
  calls_of (run (Driver.read (Stub.env Stub.open_failing) Driver.default)
                0%nat)
  = [EvAcquire 1]
  /\ failure_of (outcome_of (run (Driver.read (Stub.env Stub.open_failing)
                                              Driver.default) 0%nat))
     = Some (SHT30Error
               "I2C communication failed: [Errno 2] No such file or directory"
               (OSError "[Errno 2] No such file or directory")).
Proof.
  destruct (acquisition_failure_ends_cycle
              (Stub.env Stub.open_failing) Driver.default 0%nat 0%nat
              (OSError "[Errno 2] No such file or directory") eq_refl)
    as [Hcalls Hfailure].
  split.
  - apply Hcalls. left. reflexivity.
  - apply Hfailure. left. reflexivity.
Defined.

Lemma wait_failure_ends_cycle_witness :
  calls_of (run (Driver.read (Stub.env Stub.sleep_failing) Driver.default)
                0%nat)
  = [EvAcquire 1; EvWrite 7 0x44 0x24 [0x00];
     EvSleep 0x1.47ae147ae147bp-6%float; EvRelease 7]
  /\ failure_of (outcome_of (run (Driver.read (Stub.env Stub.sleep_failing)
                                              Driver.default) 0%nat))
     = Some (OtherException "ValueError" "sleep length must be non-negative").
Proof.
  destruct (wait_failure_ends_cycle
              (Stub.env Stub.sleep_failing) Driver.default
              0%nat 1%nat 1%nat 1%nat 7
              (OtherException "ValueError" "sleep length must be non-negative")
              eq_refl eq_refl eq_refl)
    as [Hcalls Hfailure].
  split.
  - apply Hcalls. left. reflexivity.
  - apply Hfailure. left. reflexivity.
Defined.

Lemma block_read_failure_ends_cycle_witness :
  calls_of (run (Driver.read (Stub.env Stub.read_failing) Driver.default)
                0%nat)
  = [EvAcquire 1; EvWrite 7 0x44 0x24 [0x00];
     EvSleep 0x1.47ae147ae147bp-6%float; EvRead 7 0x44 0x00 6; EvRelease 7]
  /\ failure_of (outcome_of (run (Driver.read (Stub.env Stub.read_failing)
                                              Driver.default) 0%nat))
     = Some (SHT30Error
               "I2C communication failed: [Errno 121] Remote I/O error"
               (OSError "[Errno 121] Remote I/O error")).
Proof.
  destruct (block_read_failure_ends_cycle
              (Stub.env Stub.read_failing) Driver.default
              0%nat 1%nat 1%nat 1%nat 1%nat 7
              (OSError "[Errno 121] Remote I/O error")
              eq_refl eq_refl eq_refl eq_refl)
    as [Hcalls Hfailure].
  split.
  - apply Hcalls. left. reflexivity.
  - apply Hfailure. left. reflexivity.
Defined.

Lemma non_byte_data_raise_value_error_witness :
  failure_of
    (outcome_of
       (run (Driver.read
               (Stub.env (Stub.answering [0x61; 300; 0x65; 0x7C; 0xB4; 0x75]))
               Driver.default) 0%nat))
  = Some (OtherException "ValueError" "bytes must be in range(0, 256)").
Proof.
  assert (Hdata : Exists (fun b => ~ is_byte b)
                         [0x61; 300; 0x65; 0x7C; 0xB4; 0x75]).
  { apply Exists_cons_tl, Exists_cons_hd. unfold is_byte. lia. }
  destruct (non_byte_data_raise_value_error
              (Stub.env (Stub.answering [0x61; 300; 0x65; 0x7C; 0xB4; 0x75]))
              Driver.default 0%nat 1%nat 1%nat 1%nat 1%nat 7 _
              eq_refl eq_refl eq_refl eq_refl Hdata)
    as [_ Hfailure].
  apply Hfailure. left. reflexivity.
Defined.

Lemma no_bare_OSError_before_codec_witness :
  exists e,
    failure_of (outcome_of (run (Driver.read (Stub.env Stub.read_failing)
                                             Driver.default) 0%nat))
    = Some e
    /\ forall msg, e <> OSError msg.
Proof.
  apply (no_bare_OSError_before_codec
           (Stub.env Stub.read_failing) Driver.default 0%nat).
  - left. reflexivity.
  - reflexivity.
Defined.

Lemma successive_accessors_repeat_cycle_witness :
  let calls :=
    calls_of (run (Driver.read_temperature_then_humidity
                     (Stub.env (Stub.answering Stub.good_frame))
                     Driver.default) 0%nat) in
  (Driver.count Driver.is_write calls = 2
   /\ Driver.count Driver.is_read calls = 2)%nat.
Proof.
  destruct (successive_accessors_repeat_cycle
              (Stub.env (Stub.answering Stub.good_frame)) Driver.default
              0%nat (Conversion.raw_to_celsius 0x61A8)
              (Conversion.raw_to_humidity 0x7CB4) eq_refl)
    as (_ & _ & _ & _ & Hwrite & _ & Hread & _).
  split; [exact Hwrite|exact Hread].
Defined.

Lemma fake_in_range_draws_unchanged_witness :
  Fake.read Stub.draw_mean Fake.default 0%nat
  = ((25%float, 50%float), 2%nat).
Proof.
  apply (fake_in_range_draws_unchanged Stub.draw_mean Fake.default 0%nat);
    reflexivity.
Defined.

Lemma fake_out_of_range_draws_saturate_witness :
  fst (Fake.read_temperature Stub.draw_low Fake.default 0%nat) = (-40)%float
  /\ fst (Fake.read_temperature Stub.draw_high Fake.default 0%nat) = 125%float
  /\ fst (Fake.read_humidity Stub.draw_low Fake.default 0%nat) = 0%float
  /\ fst (Fake.read_humidity Stub.draw_nan Fake.default 0%nat) = 100%float.
Proof.
  destruct (fake_out_of_range_draws_saturate Stub.draw_low Fake.default 0%nat)
    as (Htlo & _ & Hhlo & _).
  destruct (fake_out_of_range_draws_saturate Stub.draw_high Fake.default 0%nat)
    as (_ & Hthi & _ & _).
  destruct (fake_out_of_range_draws_saturate Stub.draw_nan Fake.default 0%nat)
    as (_ & _ & _ & Hhnan).
  split; [apply Htlo; reflexivity|].
  split; [apply Hthi; left; reflexivity|].
  split; [apply Hhlo; reflexivity|].
  apply Hhnan. right. reflexivity.
Defined.
